(** * green-ai-orchestrator: the mock carbon backend of the web dashboard

    A shallow embedding of [web-dashboard/src/services/mockBackend.js] and of
    the state that [components/CarbonCalculator.js] keeps around it, together
    with the properties of the estimation engine that the design document
    states about them.

    Modelling conventions.
    - A JavaScript number is an exact rational extended with [NaN] and the two
      infinities.  Finite results are kept in lowest terms, so equal numbers
      are equal terms.  Binary64 rounding and the sign of zero are not
      modelled; statements that would depend on overflow, on underflow or on
      the last digit of a result are made for quantities of ordinary
      magnitude and with bounds that a rounded result attains.
    - An object literal used as a table is an association list in insertion
      order, which is the order [Object.entries] enumerates.  A lookup that
      finds no own property goes on to [Object.prototype], as [o[k]] does.
    - A promise is represented by the way it settles; timers are dropped. *)

From Stdlib Require Import List String Ascii Bool Arith ZArith QArith Qreduction Lia Lqa.
From Stdlib Require Import Qround Permutation Sorted.
Import ListNotations.
Local Open Scope string_scope.

Set Implicit Arguments.

(* ------------------------------------------------------------------------- *)
(** ** JavaScript values *)

Module JS.

(** The Number type. *)
Inductive number : Type :=
| NaN
| PInf
| NInf
| Fin (q : Q).

(** Values that a lookup in a table of numbers yields: a number;
    [undefined], when the property is nowhere; or the member that
    [Object.prototype] has under that name (a function, or for ["__proto__"]
    the prototype itself). *)
Inductive value : Type :=
| Undefined
| Num (n : number)
| Inherited (name : string).

Definition of_Z (z : Z) : number := Fin (inject_Z z).

(** The decimal literal with value [n / d]: [0.38] is [dec 38 100]. *)
Definition dec (n : Z) (d : positive) : number := Fin (Qred (n # d)).

Definition zero : number := Fin 0.

Definition neg (a : number) : number :=
  match a with
  | NaN => NaN
  | PInf => NInf
  | NInf => PInf
  | Fin q => Fin (Qred (- q))
  end.

Definition add (a b : number) : number :=
  match a, b with
  | NaN, _ | _, NaN => NaN
  | PInf, NInf | NInf, PInf => NaN
  | PInf, _ | _, PInf => PInf
  | NInf, _ | _, NInf => NInf
  | Fin x, Fin y => Fin (Qred (x + y))
  end.

Definition sub (a b : number) : number := add a (neg b).

(** Sign of a rational as a comparison with 0. *)
Definition sgn (q : Q) : comparison := (0 ?= q)%Q.

Definition signed_inf (positive_sign : bool) : number :=
  if positive_sign then PInf else NInf.

(** [inf_times pos q]: an infinity of sign [pos] multiplied by finite [q]. *)
Definition inf_times (pos : bool) (q : Q) : number :=
  match sgn q with
  | Eq => NaN
  | Lt => signed_inf pos
  | Gt => signed_inf (negb pos)
  end.

Definition mul (a b : number) : number :=
  match a, b with
  | NaN, _ | _, NaN => NaN
  | PInf, PInf | NInf, NInf => PInf
  | PInf, NInf | NInf, PInf => NInf
  | PInf, Fin q | Fin q, PInf => inf_times true q
  | NInf, Fin q | Fin q, NInf => inf_times false q
  | Fin x, Fin y => Fin (Qred (x * y))
  end.

Definition div (a b : number) : number :=
  match a, b with
  | NaN, _ | _, NaN => NaN
  | (PInf | NInf), (PInf | NInf) => NaN
  | PInf, Fin q => match sgn q with Gt => NInf | _ => PInf end
  | NInf, Fin q => match sgn q with Gt => PInf | _ => NInf end
  | Fin _, (PInf | NInf) => zero
  | Fin x, Fin y =>
      match sgn y with
      | Eq => match sgn x with
              | Eq => NaN
              | Lt => PInf
              | Gt => NInf
              end
      | _ => Fin (Qred (x / y))
      end
  end.

(** [a < b] and [a <= b]; every comparison with [NaN] is false. *)
Definition ltb (a b : number) : bool :=
  match a, b with
  | NaN, _ | _, NaN => false
  | _, NInf => false
  | NInf, _ => true
  | PInf, _ => false
  | _, PInf => true
  | Fin x, Fin y => match (x ?= y)%Q with Lt => true | _ => false end
  end.

Definition leb (a b : number) : bool :=
  match a, b with
  | NaN, _ | _, NaN => false
  | NInf, _ => true
  | _, PInf => true
  | _, NInf => false
  | PInf, _ => false
  | Fin x, Fin y => match (x ?= y)%Q with Gt => false | _ => true end
  end.

(** [a == b] on numbers ([NaN] differs from itself). *)
Definition eqb (a b : number) : bool :=
  match a, b with
  | PInf, PInf | NInf, NInf => true
  | Fin x, Fin y => Qeq_bool x y
  | _, _ => false
  end.

Definition is_nan (a : number) : bool :=
  match a with NaN => true | _ => false end.

(** ToNumber.  An inherited member is an object whose text, "function ..."
    or "[object Object]", is not a numeral. *)
Definition to_number (v : value) : number :=
  match v with
  | Undefined => NaN
  | Num n => n
  | Inherited _ => NaN
  end.

(** ToBoolean: [undefined], [0] and [NaN] are falsy; an object is truthy. *)
Definition truthy (v : value) : bool :=
  match v with
  | Undefined => false
  | Num NaN => false
  | Num (Fin q) => negb (Qeq_bool q 0)
  | Num _ => true
  | Inherited _ => true
  end.

(** [a || b]. *)
Definition or (a b : value) : value := if truthy a then a else b.

(** [a - b] on values: both operands go through ToNumber. *)
Definition vsub (a b : value) : number := sub (to_number a) (to_number b).

(** An object literal with string keys. *)
Definition object (A : Type) : Type := list (string * A).

(** The property names of [Object.prototype]. *)
Definition objectPrototypeKeys : list string :=
  [ "constructor"; "hasOwnProperty"; "isPrototypeOf"; "propertyIsEnumerable";
    "toLocaleString"; "toString"; "valueOf"; "__proto__";
    "__defineGetter__"; "__defineSetter__"; "__lookupGetter__";
    "__lookupSetter__" ].

Definition inherits (k : string) : bool :=
  existsb (String.eqb k) objectPrototypeKeys.

(** [o[k]] for an object literal [o] whose properties hold numbers: the own
    property, else the member inherited from [Object.prototype], else
    [undefined]. *)
Fixpoint get (o : object number) (k : string) : value :=
  match o with
  | [] => if inherits k then Inherited k else Undefined
  | (k', v) :: o' => if String.eqb k' k then Num v else get o' k
  end.

(** What [a + b] gives for a looked-up [a] and a number [b]: their sum, or,
    when [a] is an inherited member, the text of that member followed by the
    text of [b]. *)
Inductive sum : Type :=
| Sum (n : number)
| MemberText (member : string) (n : number).

Definition plus (a : value) (b : number) : sum :=
  match a with
  | Inherited k => MemberText k b
  | _ => Sum (add (to_number a) b)
  end.

Definition keys {A : Type} (o : object A) : list string := map fst o.

(** [Object.entries(o)]. *)
Definition entries {A : Type} (o : object A) : list (string * A) := o.

(** [Array.prototype.sort(comparefn)].  The sort is stable; a comparator
    result that is positive puts the first argument after the second, and a
    result that is negative, zero or [NaN] leaves the two in their order.
    For a comparator that is consistent on the array every conforming
    implementation returns the list computed here. *)
Section Sort.
Variable A : Type.
Variable comparefn : A -> A -> number.

Fixpoint insert (x : A) (l : list A) : list A :=
  match l with
  | [] => [x]
  | y :: l' =>
      if ltb zero (comparefn x y) then y :: insert x l' else x :: l
  end.

Fixpoint sort (l : list A) : list A :=
  match l with
  | [] => []
  | x :: l' => insert x (sort l')
  end.

(** The element that ends up first, read off without sorting: the scan
    from the right keeps the earlier element unless it compares strictly
    greater.  [head_sort] below shows it is [sort l][[0]]. *)
Fixpoint first_sorted (l : list A) : option A :=
  match l with
  | [] => None
  | x :: l' =>
      match first_sorted l' with
      | None => Some x
      | Some y => if ltb zero (comparefn x y) then Some y else Some x
      end
  end.
End Sort.

(** [s.toUpperCase()] on ASCII text. *)
Definition upper_ascii (c : ascii) : ascii :=
  let n := nat_of_ascii c in
  if (97 <=? n)%nat && (n <=? 122)%nat then ascii_of_nat (n - 32) else c.

Fixpoint toUpperCase (s : string) : string :=
  match s with
  | EmptyString => EmptyString
  | String c s' => String (upper_ascii c) (toUpperCase s')
  end.

(** [s.substr(start, length)] for a start inside the string; a length that
    runs past the end is cut off there. *)
Fixpoint drop (n : nat) (s : string) : string :=
  match n, s with
  | O, _ => s
  | S n', String _ s' => drop n' s'
  | S _, EmptyString => EmptyString
  end.

Fixpoint take (n : nat) (s : string) : string :=
  match n, s with
  | S n', String c s' => String c (take n' s')
  | _, _ => EmptyString
  end.

Definition substr (start len : nat) (s : string) : string :=
  take len (drop start s).

(** How a promise ends: resolved with a value, rejected with a reason, or
    never settled (an exception thrown inside the timer callback escapes
    the executor). *)
Inductive promise (A : Type) : Type :=
| Resolved (v : A)
| Rejected (reason : string)
| Unsettled.

Arguments Rejected {A} reason.
Arguments Unsettled {A}.

(** [Math.floor]. *)
Definition floor (a : number) : number :=
  match a with
  | Fin q => Fin (inject_Z (Qfloor q))
  | _ => a
  end.

(** [Math.max(a, b)]: [NaN] as soon as one argument is. *)
Definition max (a b : number) : number :=
  match a, b with
  | NaN, _ | _, NaN => NaN
  | PInf, _ | _, PInf => PInf
  | NInf, _ => b
  | _, NInf => a
  | Fin x, Fin y => match (x ?= y)%Q with Lt => b | _ => a end
  end.


(** [s.split(sep)[0]] for a one-character separator: the text before the
    first separator, the whole string when there is none. *)
Fixpoint split_head (sep : ascii) (s : string) : string :=
  match s with
  | EmptyString => EmptyString
  | String c s' =>
      if Ascii.eqb c sep then EmptyString else String c (split_head sep s')
  end.

End JS.

Import JS.

Declare Scope js_scope.
Delimit Scope js_scope with js.
Infix "+" := JS.add : js_scope.
Infix "-" := JS.sub : js_scope.
Infix "*" := JS.mul : js_scope.
Infix "/" := JS.div : js_scope.

(* ------------------------------------------------------------------------- *)
(** ** services/mockBackend.js *)

(** The form data a caller hands to the backend (the [formData] state of the
    calculator). *)
Record formData : Type := mkForm {
  model_type : string;
  batch_size : number;
  dataset_size_gb : number;
  gpu_count : number;
  gpu_type : string;
  duration_hours : number;
  region : string
}.

(** One row of the carbon-intensity table: [{ region, intensity, source }].
    The row's [region] (a display name) is [region_label] here, the form
    already having a field of that name. *)
Record regionInfo : Type := mkInfo {
  region_label : string;
  intensity : number;
  source : string
}.

Definition snapshot : Type := object regionInfo.

(** What [predict] resolves with; its [region] field is [result_region]
    here. *)
Record prediction : Type := mkPrediction {
  predicted_carbon_kg : value;
  carbon_by_region : object number;
  greenest_region : string;
  potential_savings_kg : number;
  savings_percentage : number;
  result_region : string;
  job_id : string
}.

(** One call of [Math.random()]: the number drawn and the text
    [toString(36)] prints for it. *)
Record draw : Type := mkDraw {
  drawn : number;
  drawn36 : string
}.

Module mockBackend.

(** [getCarbonData]. *)
Definition getCarbonData : promise snapshot :=
  Resolved
    [ ("us-east-1", mkInfo "US East (N. Virginia)" (dec 38 100) "EPA 2024");
      ("us-west-2", mkInfo "US West (Oregon)" (dec 28 100) "EPA 2024");
      ("eu-west-1", mkInfo "EU West (Ireland)" (dec 32 100) "EEA 2024");
      ("ap-southeast-1",
        mkInfo "Asia Pacific (Singapore)" (dec 48 100) "Gov SG 2024");
      ("ca-central-1", mkInfo "Canada (Central)" (dec 12 100) "Env Canada 2024") ].

(** [refreshCarbonData].  The function declares no parameter; an argument a
    caller passes is dropped, which the ignored binder stands for. *)
Definition refreshCarbonData (_ignored : option snapshot) : promise snapshot :=
  Resolved
    [ ("us-east-1", mkInfo "US East (N. Virginia)" (dec 37 100) "EPA 2024");
      ("us-west-2", mkInfo "US West (Oregon)" (dec 27 100) "EPA 2024");
      ("eu-west-1", mkInfo "EU West (Ireland)" (dec 31 100) "EEA 2024");
      ("ap-southeast-1",
        mkInfo "Asia Pacific (Singapore)" (dec 47 100) "Gov SG 2024");
      ("ca-central-1", mkInfo "Canada (Central)" (dec 11 100) "Env Canada 2024") ].

(** [baseCarbon] of [predict]. *)
Definition baseCarbon (f : formData) : number :=
  ((duration_hours f * gpu_count f * dec 3 10)
   + (dataset_size_gb f * dec 1 100))%js.

(** The [carbonByRegion] literal of [predict]. *)
Definition carbonByRegion (base : number) : object number :=
  [ ("us-east-1", (base * dec 38 100)%js);
    ("us-west-2", (base * dec 28 100)%js);
    ("eu-west-1", (base * dec 32 100)%js);
    ("ap-southeast-1", (base * dec 48 100)%js);
    ("ca-central-1", (base * dec 12 100)%js) ].

(** The comparator [([,a], [,b]) => a - b]. *)
Definition by_carbon (x y : string * number) : number :=
  (snd x - snd y)%js.

(** ['JOB_' + Math.random().toString(36).substr(2, 9).toUpperCase()];
    [random36] is the text [Math.random().toString(36)] produced. *)
Definition make_job_id (random36 : string) : string :=
  "JOB_" ++ toUpperCase (substr 2 9 random36).

(** [predict].  Reading [[0][0]] of an empty array would throw inside the
    timer callback and leave the promise unsettled. *)
Definition predict (f : formData) (random36 : string) : promise prediction :=
  let table := carbonByRegion (baseCarbon f) in
  let currentCarbon := get table (region f) in
  match sort by_carbon (entries table) with
  | [] => Unsettled
  | (greenestRegion, _) :: _ =>
      let bestCarbon := get table greenestRegion in
      let savings := vsub currentCarbon bestCarbon in
      let savingsPercentage :=
        ((savings / to_number currentCarbon) * of_Z 100)%js in
      Resolved
        {| predicted_carbon_kg := currentCarbon;
           carbon_by_region := table;
           greenest_region := greenestRegion;
           potential_savings_kg := savings;
           savings_percentage := savingsPercentage;
           result_region := region f;
           job_id := make_job_id random36 |}
  end.

Definition modelPower : object number :=
  [ ("ResNet50", of_Z 180);
    ("BERT-Base", of_Z 250);
    ("GPT-2", of_Z 350);
    ("ViT", of_Z 220);
    ("YOLO", of_Z 150);
    ("CNN-Small", of_Z 80) ].

Definition gpuPower : object number :=
  [ ("T4", of_Z 70);
    ("V100", of_Z 300);
    ("A100", of_Z 400) ].

(** [calculateEstimatedPower]. *)
Definition calculateEstimatedPower (f : formData) : sum :=
  plus (JS.or (get modelPower (model_type f)) (Num (of_Z 200)))
       (to_number (JS.or (get gpuPower (gpu_type f)) (Num (of_Z 250)))
        * gpu_count f)%js.

(** What [getStats] resolves with. *)
Record stats : Type := mkStats {
  total_jobs : number;
  total_carbon_predicted_kg : number;
  total_potential_savings_kg : number;
  average_savings_percentage : number;
  jobs_by_region : object number;
  jobs_by_model : object number
}.

(** [getStats]. *)
Definition getStats : promise stats :=
  Resolved
    {| total_jobs := of_Z 47;
       total_carbon_predicted_kg := dec 1256 10;
       total_potential_savings_kg := dec 423 10;
       average_savings_percentage := dec 337 10;
       jobs_by_region :=
         [ ("us-east-1", of_Z 15); ("us-west-2", of_Z 12);
           ("eu-west-1", of_Z 10); ("ap-southeast-1", of_Z 7);
           ("ca-central-1", of_Z 3) ];
       jobs_by_model :=
         [ ("ResNet50", of_Z 18); ("BERT-Base", of_Z 12); ("GPT-2", of_Z 8);
           ("ViT", of_Z 5); ("YOLO", of_Z 3); ("CNN-Small", of_Z 1) ] |}.

(** One row of [getJobs]. *)
Record job : Type := mkJob {
  job_id : string;
  model_type : string;
  region : string;
  predicted_carbon_kg : number;
  potential_savings_kg : number;
  savings_percentage : number
}.

(** The mapper of [Array.from({ length: limit }, (_, i) => ...)].  Each row
    calls [Math.random()] four times, in the order of the literal; [random]
    numbers the calls of one [getJobs].  ([i % 4] and [i % 5] stay inside
    the two arrays, so the default of [nth] is never read.) *)
Definition job_at (random : nat -> draw) (i : nat) : job :=
  {| job_id := make_job_id (drawn36 (random (4 * i)%nat));
     model_type :=
       nth (i mod 4) ["ResNet50"; "BERT-Base"; "GPT-2"; "ViT"] "";
     region :=
       nth (i mod 5)
         ["us-east-1"; "us-west-2"; "eu-west-1"; "ap-southeast-1";
          "ca-central-1"] "";
     predicted_carbon_kg :=
       (dec 25 10 + drawn (random (4 * i + 1)%nat) * of_Z 5)%js;
     potential_savings_kg :=
       (dec 5 10 + drawn (random (4 * i + 2)%nat) * of_Z 2)%js;
     savings_percentage :=
       (of_Z 15 + drawn (random (4 * i + 3)%nat) * of_Z 35)%js |}.

(** [getJobs(limit = 10)], for a limit that is a natural number or left
    out. *)
Definition getJobs (limit : option nat) (random : nat -> draw)
  : promise (list job) :=
  let limit := match limit with Some n => n | None => 10%nat end in
  Resolved (map (job_at random) (seq 0 limit)).

End mockBackend.

(* ------------------------------------------------------------------------- *)
(** ** components/CarbonCalculator.js: the state around the backend *)

Module CarbonCalculator.

(** The [useState] cells of the component. *)
Record state : Type := mkState {
  form : formData;
  loading : bool;
  result : option prediction;
  error : string;
  carbonData : snapshot;
  updatingCarbon : bool
}.

Definition defaultForm : formData :=
  {| model_type := "ResNet50";
     batch_size := of_Z 32;
     dataset_size_gb := of_Z 100;
     gpu_count := of_Z 2;
     gpu_type := "V100";
     duration_hours := of_Z 4;
     region := "us-east-1" |}.

Definition initial : state :=
  {| form := defaultForm;
     loading := false;
     result := None;
     error := "";
     carbonData := [];
     updatingCarbon := false |}.

(** What can happen to the component.  An input change carries the field
    name and, for the three text fields ([model_type], [gpu_type],
    [region]), the text of the control, for the others the number
    [parseFloat] made of it. *)
Inductive event : Type :=
| Mount
| ChangeText (name value : string)
| ChangeNumber (name : string) (parsed : number)
| ClickUpdateCarbon
| Submit (random36 : string).

Definition setCarbonData (d : snapshot) (s : state) : state :=
  {| form := form s; loading := loading s; result := result s;
     error := error s; carbonData := d;
     updatingCarbon := updatingCarbon s |}.

Definition setError (e : string) (s : state) : state :=
  {| form := form s; loading := loading s; result := result s;
     error := e; carbonData := carbonData s;
     updatingCarbon := updatingCarbon s |}.

Definition setUpdatingCarbon (b : bool) (s : state) : state :=
  {| form := form s; loading := loading s; result := result s;
     error := error s; carbonData := carbonData s;
     updatingCarbon := b |}.

Definition setLoading (b : bool) (s : state) : state :=
  {| form := form s; loading := b; result := result s;
     error := error s; carbonData := carbonData s;
     updatingCarbon := updatingCarbon s |}.

Definition setResult (r : prediction) (s : state) : state :=
  {| form := form s; loading := loading s; result := Some r;
     error := error s; carbonData := carbonData s;
     updatingCarbon := updatingCarbon s |}.

Definition setFormData (f : formData) (s : state) : state :=
  {| form := f; loading := loading s; result := result s;
     error := error s; carbonData := carbonData s;
     updatingCarbon := updatingCarbon s |}.

(** [loadCarbonData]. *)
Definition loadCarbonData (s : state) : state :=
  match mockBackend.getCarbonData with
  | Resolved data => setCarbonData data s
  | Rejected _ => setError "Failed to load carbon intensity data" s
  | Unsettled => s
  end.

(** [refreshCarbonData] of the component. *)
Definition refreshCarbonData (s : state) : state :=
  let s1 := setUpdatingCarbon true s in
  match mockBackend.refreshCarbonData None with
  | Resolved data => setUpdatingCarbon false (setCarbonData data s1)
  | Rejected _ => setUpdatingCarbon false s1
  | Unsettled => s1
  end.

(** [handleSubmit]. *)
Definition handleSubmit (random36 : string) (s : state) : state :=
  let s1 := setError "" (setLoading true s) in
  match mockBackend.predict (form s) random36 with
  | Resolved response => setLoading false (setResult response s1)
  | Rejected message =>
      setLoading false
        (setError
           (if String.eqb message "" then
              "Failed to calculate carbon emissions."
            else message) s1)
  | Unsettled => s1
  end.

(** [handleInputChange]. *)
Definition changeText (name value : string) (f : formData) : formData :=
  if String.eqb name "model_type" then
    mkForm value (batch_size f) (dataset_size_gb f) (gpu_count f)
      (gpu_type f) (duration_hours f) (region f)
  else if String.eqb name "gpu_type" then
    mkForm (model_type f) (batch_size f) (dataset_size_gb f) (gpu_count f)
      value (duration_hours f) (region f)
  else if String.eqb name "region" then
    mkForm (model_type f) (batch_size f) (dataset_size_gb f) (gpu_count f)
      (gpu_type f) (duration_hours f) value
  else f.

Definition changeNumber (name : string) (n : number) (f : formData)
  : formData :=
  if String.eqb name "batch_size" then
    mkForm (model_type f) n (dataset_size_gb f) (gpu_count f)
      (gpu_type f) (duration_hours f) (region f)
  else if String.eqb name "dataset_size_gb" then
    mkForm (model_type f) (batch_size f) n (gpu_count f)
      (gpu_type f) (duration_hours f) (region f)
  else if String.eqb name "gpu_count" then
    mkForm (model_type f) (batch_size f) (dataset_size_gb f) n
      (gpu_type f) (duration_hours f) (region f)
  else if String.eqb name "duration_hours" then
    mkForm (model_type f) (batch_size f) (dataset_size_gb f) (gpu_count f)
      (gpu_type f) n (region f)
  else f.

Definition step (s : state) (e : event) : state :=
  match e with
  | Mount => loadCarbonData s
  | ChangeText name value => setFormData (changeText name value (form s)) s
  | ChangeNumber name n => setFormData (changeNumber name n (form s)) s
  | ClickUpdateCarbon => refreshCarbonData s
  | Submit random36 => handleSubmit random36 s
  end.

Definition run (es : list event) : state := fold_left step es initial.

(** The states the component can be in. *)
Definition reachable (s : state) : Prop := exists es, s = run es.

(** [getCarbonIntensityColor]. *)
Definition getCarbonIntensityColor (intensity : number) : string :=
  if ltb intensity (dec 3 10) then "success"
  else if ltb intensity (dec 5 10) then "warning"
  else "danger".


(** The caption of a card: [region.split('-')[0]]. *)
Definition cardCaption (region : string) : string :=
  split_head "-"%char region.

End CarbonCalculator.

Import CarbonCalculator.

(* ------------------------------------------------------------------------- *)
(** ** The formulas of the design document

    Written after the document's own words (section numbers are the
    document's), to be compared with the backend. *)

Module Design.

(** 4.3: [energyKwh = powerWatts * durationHours / 1000], plus the dataset
    overhead [datasetSizeGb * DATASET_COEFFICIENT]. *)
Definition totalEnergyKwh (DATASET_COEFFICIENT : number)
    (powerWatts durationHours datasetSizeGb : number) : number :=
  ((powerWatts * durationHours / of_Z 1000)
   + (datasetSizeGb * DATASET_COEFFICIENT))%js.

(** 4.2: the estimate as watts (a text is no number of watts). *)
Definition watts (estimate : sum) : number :=
  match estimate with
  | Sum n => n
  | MemberText _ _ => NaN
  end.

(** 4.3: [carbonByRegion[r] = totalEnergyKwh * intensity[r].intensityKgPerKwh],
    the power being the one 4.2 estimates. *)
Definition carbonFor (DATASET_COEFFICIENT : number) (f : formData)
    (info : regionInfo) : number :=
  (totalEnergyKwh DATASET_COEFFICIENT
     (watts (mockBackend.calculateEstimatedPower f))
     (duration_hours f) (dataset_size_gb f)
   * intensity info)%js.

(** 3: the arg-min, ties broken by the lexicographic order of the codes. *)
Definition better (x y : string * number) : bool :=
  ltb (snd x) (snd y)
  || (JS.eqb (snd x) (snd y) && String.ltb (fst x) (fst y)).

Fixpoint greenestRegion (o : object number) : option string :=
  match o with
  | [] => None
  | x :: o' =>
      match greenestRegion o' with
      | None => Some (fst x)
      | Some k =>
          match get o' k with
          | Num v => if better (k, v) x then Some k else Some (fst x)
          | _ => Some (fst x)
          end
      end
  end.

(** 4.2: catalogue lookups with their documented defaults. *)
Fixpoint catalogued (table : object number) (k : string) : option number :=
  match table with
  | [] => None
  | (k', w) :: table' =>
      if String.eqb k' k then Some w else catalogued table' k
  end.

Definition basePower (modelType : string) : number :=
  match catalogued mockBackend.modelPower modelType with
  | Some w => w
  | None => of_Z 200
  end.

Definition perGpuPower (gpuType : string) : number :=
  match catalogued mockBackend.gpuPower gpuType with
  | Some w => w
  | None => of_Z 250
  end.

(** 3: the field constraints of a WorkloadSpec, as they are written:
    [batchSize: int>0], [datasetSizeGb: float>0], [gpuCount: int>=1],
    [durationHours: float>0]; the two enumerations are open (4.2), and the
    region is judged against the snapshot. *)
Definition integral (n : number) : bool :=
  match n with
  | Fin q => Pos.eqb (Qden (Qred q)) 1
  | _ => false
  end.

Definition validWorkload (f : formData) : bool :=
  integral (batch_size f) && ltb zero (batch_size f)
  && ltb zero (dataset_size_gb f)
  && integral (gpu_count f) && leb (of_Z 1) (gpu_count f)
  && ltb zero (duration_hours f).

(** 3: intensities are non-negative. *)
Definition nonNegative (snap : snapshot) : bool :=
  forallb (fun e => leb zero (intensity (snd e))) snap.

End Design.

(* ------------------------------------------------------------------------- *)
(** ** Names for the backend's tables *)

(** The regions [predict] computes a value for, in the order of its literal. *)
Definition builtinRegions : list string :=
  ["us-east-1"; "us-west-2"; "eu-west-1"; "ap-southeast-1"; "ca-central-1"].

(** The table [getCarbonData] resolves with. *)
Definition initialTable : snapshot :=
  match mockBackend.getCarbonData with
  | Resolved d => d
  | _ => []
  end.

(** The table [refreshCarbonData] resolves with. *)
Definition refreshedTable : snapshot :=
  match mockBackend.refreshCarbonData None with
  | Resolved d => d
  | _ => []
  end.

(* ------------------------------------------------------------------------- *)
(** ** components/WorkloadCreator.js *)

Module WorkloadCreator.

(** The [workloadData] cell. *)
Record workloadData : Type := mkWorkload {
  name : string;
  workload_type : string;
  cpu_cores : number;
  memory_gb : number;
  gpu_count : number;
  duration_hours : number;
  dataset_size : number
}.

(** What [optimizeWorkload] resolves with: the workload it was given
    ([...workload]) and the fields it adds. *)
Record optimized : Type := mkOptimized {
  workload : workloadData;
  optimized_cpu_cores : number;
  optimized_memory_gb : number;
  optimized_gpu_count : number;
  estimated_carbon : number;
  optimized_carbon : number;
  recommended_region : string;
  cost_savings : number;
  carbon_savings : number
}.

(** [baseCarbon] of [optimizeWorkload]. *)
Definition baseCarbon (w : workloadData) : number :=
  ((cpu_cores w * dec 1 10) + (memory_gb w * dec 5 100)
   + (gpu_count w * dec 5 10) + (duration_hours w * dec 2 10))%js.

(** [optimizeWorkload]. *)
Definition optimizeWorkload (w : workloadData) : promise optimized :=
  Resolved
    {| workload := w;
       optimized_cpu_cores :=
         JS.max (of_Z 2) (floor (cpu_cores w * dec 8 10)%js);
       optimized_memory_gb :=
         JS.max (of_Z 8) (floor (memory_gb w * dec 9 10)%js);
       optimized_gpu_count := JS.max (of_Z 1) (floor (gpu_count w));
       estimated_carbon := baseCarbon w;
       optimized_carbon := (baseCarbon w * dec 7 10)%js;
       recommended_region := "us-west-2";
       cost_savings := of_Z 25;
       carbon_savings := of_Z 30 |}.

(** The [useState] cells of the component. *)
Record state : Type := mkState {
  data : workloadData;
  loading : bool;
  result : option optimized;
  error : string
}.

Definition initial : state :=
  {| data :=
       {| name := "Image Classification Training";
          workload_type := "model_training";
          cpu_cores := of_Z 4;
          memory_gb := of_Z 16;
          gpu_count := of_Z 1;
          duration_hours := of_Z 2;
          dataset_size := of_Z 50 |};
     loading := false;
     result := None;
     error := "" |}.

(** [handleSubmit]; the bool tells whether [onWorkloadCreated] was called. *)
Definition handleSubmit (s : state) : state * bool :=
  match optimizeWorkload (data s) with
  | Resolved optimizedConfig =>
      ({| data := data s; loading := false;
          result := Some optimizedConfig; error := "" |}, true)
  | Rejected _ =>
      ({| data := data s; loading := false; result := result s;
          error := "Failed to optimize workload. Please try again." |},
       false)
  | Unsettled =>
      ({| data := data s; loading := true; result := result s;
          error := "" |}, false)
  end.

(** [handleInputChange]: [name] and [workload_type] take the text of the
    control, every other field the number [parseFloat] made of it. *)
Definition changeText (field value : string) (w : workloadData)
  : workloadData :=
  if String.eqb field "workload_type" then
    mkWorkload (name w) value (cpu_cores w) (memory_gb w) (gpu_count w)
      (duration_hours w) (dataset_size w)
  else if String.eqb field "name" then
    mkWorkload value (workload_type w) (cpu_cores w) (memory_gb w)
      (gpu_count w) (duration_hours w) (dataset_size w)
  else w.

Definition changeNumber (field : string) (n : number) (w : workloadData)
  : workloadData :=
  if String.eqb field "cpu_cores" then
    mkWorkload (name w) (workload_type w) n (memory_gb w) (gpu_count w)
      (duration_hours w) (dataset_size w)
  else if String.eqb field "memory_gb" then
    mkWorkload (name w) (workload_type w) (cpu_cores w) n (gpu_count w)
      (duration_hours w) (dataset_size w)
  else if String.eqb field "gpu_count" then
    mkWorkload (name w) (workload_type w) (cpu_cores w) (memory_gb w) n
      (duration_hours w) (dataset_size w)
  else if String.eqb field "duration_hours" then
    mkWorkload (name w) (workload_type w) (cpu_cores w) (memory_gb w)
      (gpu_count w) n (dataset_size w)
  else if String.eqb field "dataset_size" then
    mkWorkload (name w) (workload_type w) (cpu_cores w) (memory_gb w)
      (gpu_count w) (duration_hours w) n
  else w.

Inductive event : Type :=
| ChangeText (field value : string)
| ChangeNumber (field : string) (parsed : number)
| Submit.

Definition setData (w : workloadData) (s : state) : state :=
  {| data := w; loading := loading s; result := result s;
     error := error s |}.

(** One event; the bool tells whether [onWorkloadCreated] was called. *)
Definition step (s : state) (e : event) : state * bool :=
  match e with
  | ChangeText field value => (setData (changeText field value (data s)) s, false)
  | ChangeNumber field n => (setData (changeNumber field n (data s)) s, false)
  | Submit => handleSubmit s
  end.

End WorkloadCreator.

(* ------------------------------------------------------------------------- *)
(** ** components/Dashboard.js *)

Module Dashboard.

Record state : Type := mkState {
  stats : option mockBackend.stats;
  recentJobs : list mockBackend.job;
  loading : bool;
  error : string;
  carbonData : snapshot
}.

Definition initial : state :=
  {| stats := None; recentJobs := []; loading := true; error := "";
     carbonData := [] |}.

(** [Promise.all] of three promises: rejected as soon as one is, resolved
    when all are. *)
Definition all3 {A B C : Type}
    (a : promise A) (b : promise B) (c : promise C) : promise (A * B * C) :=
  match a, b, c with
  | Rejected r, _, _ => Rejected r
  | _, Rejected r, _ => Rejected r
  | _, _, Rejected r => Rejected r
  | Resolved x, Resolved y, Resolved z => Resolved (x, y, z)
  | _, _, _ => Unsettled
  end.

(** [fetchData]; [random] numbers the [Math.random()] calls of this
    fetch. *)
Definition fetchData (random : nat -> draw) (s : state) : state :=
  match all3 mockBackend.getStats (mockBackend.getJobs (Some 10%nat) random)
             mockBackend.getCarbonData with
  | Resolved (statsResponse, jobsResponse, carbonResponse) =>
      {| stats := Some statsResponse; recentJobs := jobsResponse;
         loading := false; error := ""; carbonData := carbonResponse |}
  | Rejected _ =>
      {| stats := stats s; recentJobs := recentJobs s; loading := false;
         error := "Failed to load dashboard data.";
         carbonData := carbonData s |}
  | Unsettled =>
      {| stats := stats s; recentJobs := recentJobs s; loading := loading s;
         error := ""; carbonData := carbonData s |}
  end.

(** The name of a chart entry: [name.split('-')[0]]. *)
Definition chartName (key : string) : string := split_head "-"%char key.

End Dashboard.

(* ------------------------------------------------------------------------- *)
(** ** App.js: the three components and the refresh trigger *)

Module App.

Record state : Type := mkState {
  calculator : CarbonCalculator.state;
  creator : WorkloadCreator.state;
  dashboard : Dashboard.state;
  refreshTrigger : nat
}.

Definition initial : state :=
  {| calculator := CarbonCalculator.initial;
     creator := WorkloadCreator.initial;
     dashboard := Dashboard.initial;
     refreshTrigger := 0 |}.

(** What can happen to the page.  An event that makes the dashboard fetch
    carries the random draws of that fetch. *)
Inductive event : Type :=
| Calculator (e : CarbonCalculator.event) (random : nat -> draw)
| Creator (e : WorkloadCreator.event) (random : nat -> draw)
| DashboardFetch (random : nat -> draw).

(** [handleNewPrediction], followed by the effect of the dashboard that
    depends on [refreshTrigger]. *)
Definition handleNewPrediction (random : nat -> draw) (s : state) : state :=
  {| calculator := calculator s;
     creator := creator s;
     dashboard := Dashboard.fetchData random (dashboard s);
     refreshTrigger := S (refreshTrigger s) |}.

(** Whether the calculator calls [onNewPrediction] on this event: at the end
    of the [try] block of its [handleSubmit], that is when [predict]
    resolved. *)
Definition notifies (c : CarbonCalculator.state) (e : CarbonCalculator.event)
  : bool :=
  match e with
  | CarbonCalculator.Submit random36 =>
      match mockBackend.predict (CarbonCalculator.form c) random36 with
      | Resolved _ => true
      | _ => false
      end
  | _ => false
  end.

Definition step (s : state) (e : event) : state :=
  match e with
  | Calculator ce random =>
      let s' := {| calculator := CarbonCalculator.step (calculator s) ce;
                   creator := creator s;
                   dashboard := dashboard s;
                   refreshTrigger := refreshTrigger s |} in
      if notifies (calculator s) ce then handleNewPrediction random s' else s'
  | Creator we random =>
      let (w', created) := WorkloadCreator.step (creator s) we in
      let s' := {| calculator := calculator s;
                   creator := w';
                   dashboard := dashboard s;
                   refreshTrigger := refreshTrigger s |} in
      if created then handleNewPrediction random s' else s'
  | DashboardFetch random =>
      {| calculator := calculator s;
         creator := creator s;
         dashboard := Dashboard.fetchData random (dashboard s);
         refreshTrigger := refreshTrigger s |}
  end.

Definition run (es : list event) : state := fold_left step es initial.

Definition reachable (s : state) : Prop := exists es, s = run es.

(** The events that submit a form. *)
Definition submits (e : event) : bool :=
  match e with
  | Calculator (CarbonCalculator.Submit _) _ => true
  | Creator WorkloadCreator.Submit _ => true
  | _ => false
  end.

End App.

(* ------------------------------------------------------------------------- *)
(** ** Predicates used in the statements *)

(** A positive magnitude well inside the range of binary64, where a product
    or a sum of a few such numbers neither overflows nor underflows. *)
Definition ordinaryQuantity (n : number) : bool :=
  match n with
  | Fin q => Qle_bool (1 # 2 ^ 300) q && Qle_bool q (inject_Z (2 ^ 300))
  | _ => false
  end.

(** The three quantities [predict] reads are of ordinary magnitude. *)
Definition ordinaryWorkload (f : formData) : bool :=
  ordinaryQuantity (duration_hours f) && ordinaryQuantity (gpu_count f)
  && ordinaryQuantity (dataset_size_gb f).

Definition isZero (n : number) : bool :=
  match n with
  | Fin q => Qeq_bool q 0
  | _ => false
  end.

Definition isFinite (n : number) : bool :=
  match n with
  | Fin _ => true
  | _ => false
  end.

(** A workload with nothing to do: no data, and no duration or no GPU. *)
Definition emptyWorkload (f : formData) : bool :=
  isZero (dataset_size_gb f)
  && ((isZero (duration_hours f) && isFinite (gpu_count f))
      || (isFinite (duration_hours f) && isZero (gpu_count f))).

(** The mirror image of an ordinary workload: a negative duration, with a
    dataset that is empty or of negative size. *)
Definition negativeWorkload (f : formData) : bool :=
  ordinaryQuantity (neg (duration_hours f)) && ordinaryQuantity (gpu_count f)
  && (isZero (dataset_size_gb f)
      || ordinaryQuantity (neg (dataset_size_gb f))).

(** A quantity that is [NaN], infinite, zero, or of ordinary magnitude with
    either sign. *)
Definition plainQuantity (n : number) : bool :=
  match n with
  | Fin q => isZero n || ordinaryQuantity n || ordinaryQuantity (neg n)
  | _ => true
  end.

Definition plainWorkload (f : formData) : bool :=
  plainQuantity (duration_hours f) && plainQuantity (gpu_count f)
  && plainQuantity (dataset_size_gb f).


(** A dashboard that a fetch has filled. *)
Definition dashboardFilled (d : Dashboard.state) : Prop :=
  exists st,
    Dashboard.stats d = Some st
    /\ mockBackend.getStats = Resolved st
    /\ List.length (Dashboard.recentJobs d) = 10%nat
    /\ Dashboard.carbonData d = initialTable.

(* ------------------------------------------------------------------------- *)
(** ** Numbers: order and arithmetic facts *)

#[local] Arguments Qred _ : simpl never.
#[local] Arguments Qplus _ _ : simpl never.
#[local] Arguments Qmult _ _ : simpl never.
#[local] Arguments Qopp _ : simpl never.
#[local] Arguments Qdiv _ _ : simpl never.
#[local] Arguments Qinv _ : simpl never.
#[local] Arguments Qcompare _ _ : simpl never.
#[local] Arguments inject_Z _ : simpl never.

Section NumberFacts.

Lemma Qcompare_Lt (x y : Q) : (x ?= y)%Q = Lt <-> (x < y)%Q.
Proof. symmetry. apply Qlt_alt. Qed.

Lemma ltb_Fin (x y : Q) : ltb (Fin x) (Fin y) = true <-> (x < y)%Q.
Proof.
  simpl. rewrite <- Qcompare_Lt.
  destruct (x ?= y)%Q; split; congruence.
Qed.

Lemma leb_Fin (x y : Q) : leb (Fin x) (Fin y) = true <-> (x <= y)%Q.
Proof.
  simpl. rewrite Qle_alt.
  destruct (x ?= y)%Q; split; congruence.
Qed.

(** The sign of a difference is the comparison of its operands, as long as
    neither is [NaN]. *)
Lemma ltb_zero_sub (a b : number) :
  is_nan a = false -> is_nan b = false ->
  ltb zero (a - b)%js = ltb b a.
Proof.
  destruct a as [ | | |x], b as [ | | |y]; simpl; try congruence; intros _ _.
  assert (D : (Qred (x + Qred (- y)) == x - y)%Q)
    by (rewrite !Qred_correct; ring).
  destruct (Qcompare_spec y x) as [E|E|E];
    destruct (Qcompare_spec 0 (Qred (x + Qred (- y)))) as [F|F|F];
    try reflexivity; rewrite D in F; lra.
Qed.

Lemma ltb_false_leb (a b : number) :
  is_nan a = false -> is_nan b = false ->
  ltb b a = false -> leb a b = true.
Proof.
  destruct a as [ | | |x], b as [ | | |y]; simpl; try congruence; intros _ _.
  destruct (Qcompare_spec y x) as [E|E|E];
    destruct (Qcompare_spec x y) as [F|F|F]; try congruence; lra.
Qed.

Lemma ltb_leb (a b : number) : ltb a b = true -> leb a b = true.
Proof.
  destruct a as [ | | |x], b as [ | | |y]; simpl; try congruence.
  destruct (x ?= y)%Q; congruence.
Qed.

Lemma leb_refl (a : number) : is_nan a = false -> leb a a = true.
Proof.
  destruct a as [ | | |x]; simpl; try congruence; intros _.
  apply (leb_Fin x x). lra.
Qed.

Lemma leb_trans (a b c : number) :
  leb a b = true -> leb b c = true -> leb a c = true.
Proof.
  destruct a as [ | | |x], b as [ | | |y], c as [ | | |z];
    try (simpl; congruence).
  rewrite !leb_Fin. lra.
Qed.

End NumberFacts.

(* ------------------------------------------------------------------------- *)
(** ** Sorting: what comes first *)

Section SortFacts.

Variable A : Type.
Variable comparefn : A -> A -> number.

Lemma head_insert (x : A) (l : list A) :
  hd_error (insert comparefn x l) =
  match hd_error l with
  | None => Some x
  | Some y => if ltb zero (comparefn x y) then Some y else Some x
  end.
Proof.
  destruct l as [|y l]; [reflexivity|]. cbn [insert hd_error].
  destruct (ltb zero (comparefn x y)); reflexivity.
Qed.

Lemma head_sort (l : list A) :
  hd_error (sort comparefn l) = first_sorted comparefn l.
Proof.
  induction l as [|x l IH]; [reflexivity|]. cbn [sort first_sorted].
  rewrite head_insert, IH. reflexivity.
Qed.

Lemma first_sorted_cons (x : A) (l : list A) :
  exists g, first_sorted comparefn (x :: l) = Some g.
Proof.
  cbn [first_sorted]. destruct (first_sorted comparefn l) as [y|]; [|eauto].
  destruct (ltb zero (comparefn x y)); eauto.
Qed.

Lemma first_sorted_none (l : list A) :
  first_sorted comparefn l = None -> l = [].
Proof.
  destruct l as [|x l]; [reflexivity|].
  destruct (first_sorted_cons x l) as [g E]. congruence.
Qed.

End SortFacts.

(** With the comparator [a - b] on entries that hold no [NaN], the first
    element is a minimum, and the earliest one: everything listed before it is
    strictly greater. *)
Lemma first_sorted_by_carbon (l : object number) (g : string * number) :
  (forall e, In e l -> is_nan (snd e) = false) ->
  first_sorted mockBackend.by_carbon l = Some g ->
  (forall e, In e l -> leb (snd g) (snd e) = true)
  /\ exists before after,
       l = (before ++ g :: after)%list
       /\ forall e, In e before -> ltb (snd g) (snd e) = true.
Proof.
  revert g. induction l as [|x l IH]; intros g Hnan Hg; [discriminate|].
  cbn [first_sorted] in Hg.
  assert (Hx : is_nan (snd x) = false) by (apply Hnan; left; reflexivity).
  assert (Hl : forall e, In e l -> is_nan (snd e) = false)
    by (intros e He; apply Hnan; right; exact He).
  destruct (first_sorted mockBackend.by_carbon l) as [y|] eqn:Ey.
  - destruct (IH y Hl eq_refl) as [Hmin (before & after & Hsplit & Hbefore)].
    assert (Hy : is_nan (snd y) = false).
    { apply Hl. rewrite Hsplit. apply in_elt. }
    unfold mockBackend.by_carbon in Hg.
    rewrite (ltb_zero_sub _ _ Hx Hy) in Hg.
    destruct (ltb (snd y) (snd x)) eqn:Eyx; inversion Hg; subst g; clear Hg.
    + split.
      * intros e [<-|He]; [apply ltb_leb; exact Eyx | apply Hmin; exact He].
      * exists (x :: before), after. split; [simpl; congruence|].
        intros e [<-|He]; [exact Eyx | apply Hbefore; exact He].
    + assert (Hxy : leb (snd x) (snd y) = true)
        by (apply ltb_false_leb; assumption).
      split.
      * intros e [<-|He]; [apply leb_refl; exact Hx|].
        apply leb_trans with (snd y); [exact Hxy | apply Hmin; exact He].
      * exists [], l. split; [reflexivity | intros e []].
  - apply first_sorted_none in Ey. subst l. inversion Hg; subst g.
    split.
    + intros e [<-|[]]. apply leb_refl; exact Hx.
    + exists [], []. split; [reflexivity | intros e []].
Qed.

(* ------------------------------------------------------------------------- *)
(** ** Tables and lookups *)

Lemma get_absent (o : object number) (k : string) :
  ~ In k (keys o) ->
  get o k = if inherits k then Inherited k else Undefined.
Proof.
  induction o as [|[k' v] o IH]; intros H; [reflexivity|].
  cbn [get]. destruct (String.eqb_spec k' k) as [->|_].
  - exfalso. apply H. left. reflexivity.
  - apply IH. intros Hin. apply H. right. exact Hin.
Qed.

Lemma get_present (o : object number) (k : string) (v : number) :
  NoDup (keys o) -> In (k, v) o -> get o k = Num v.
Proof.
  induction o as [|[k' v'] o IH]; intros Hnd Hin; [destruct Hin|].
  cbn [keys map fst] in Hnd. inversion Hnd as [|? ? Hk Hnd']; subst.
  cbn [get]. destruct Hin as [E|Hin].
  - inversion E; subst. rewrite String.eqb_refl. reflexivity.
  - destruct (String.eqb_spec k' k) as [->|_].
    + exfalso. apply Hk. change (In k (map fst o)).
      apply (in_map fst) in Hin. exact Hin.
    + apply IH; assumption.
Qed.

Lemma get_Num_in (o : object number) (k : string) (v : number) :
  get o k = Num v -> In (k, v) o.
Proof.
  induction o as [|[k' v'] o IH];
    [cbn [get]; destruct (inherits k); discriminate|].
  cbn [get]. destruct (String.eqb_spec k' k) as [->|_].
  - intros E. inversion E. left. reflexivity.
  - intros E. right. apply IH. exact E.
Qed.

Lemma catalogued_get (table : object number) (k : string) :
  get table k =
  match Design.catalogued table k with
  | Some w => Num w
  | None => if inherits k then Inherited k else Undefined
  end.
Proof.
  induction table as [|[k' w] table IH]; [reflexivity|].
  cbn [get Design.catalogued]. destruct (String.eqb k' k); [reflexivity|exact IH].
Qed.

Lemma catalogued_in (table : object number) (k : string) (w : number) :
  Design.catalogued table k = Some w -> In (k, w) table.
Proof.
  induction table as [|[k' w'] table IH]; [discriminate|].
  cbn [Design.catalogued]. destruct (String.eqb_spec k' k) as [->|_].
  - intros E. inversion E. left. reflexivity.
  - intros E. right. apply IH. exact E.
Qed.

Lemma catalogued_absent (table : object number) (k : string) :
  Design.catalogued table k = None <-> ~ In k (keys table).
Proof.
  induction table as [|[k' w'] table IH]; [simpl; tauto|].
  cbn [Design.catalogued keys map fst].
  destruct (String.eqb_spec k' k) as [->|Hne].
  - split; [discriminate|]. intros H. exfalso. apply H. left. reflexivity.
  - rewrite IH. unfold keys. simpl. tauto.
Qed.

(* ------------------------------------------------------------------------- *)
(** ** The backend's tables *)

Lemma keys_carbonByRegion (base : number) :
  keys (mockBackend.carbonByRegion base) = builtinRegions.
Proof. reflexivity. Qed.

Lemma NoDup_builtinRegions : NoDup builtinRegions.
Proof.
  unfold builtinRegions.
  repeat (constructor; [simpl; intuition discriminate|]). constructor.
Qed.

(** Multiplying by one of the positive coefficients keeps [NaN]-ness. *)
Lemma is_nan_scaled (base : number) (n : Z) (d : positive) :
  (0 < n)%Z -> is_nan (base * dec n d)%js = is_nan base.
Proof.
  intros Hn. unfold dec.
  assert (Hpos : (0 < Qred (n # d))%Q).
  { rewrite Qred_correct. unfold Qlt. simpl. lia. }
  destruct base as [ | | |b]; cbn [JS.mul is_nan]; try reflexivity;
    unfold inf_times, sgn;
    destruct (Qcompare_spec 0 (Qred (n # d))) as [E|E|E];
    try reflexivity; lra.
Qed.

Lemma carbonByRegion_nan (base : number) (e : string * number) :
  In e (mockBackend.carbonByRegion base) -> is_nan (snd e) = is_nan base.
Proof.
  unfold mockBackend.carbonByRegion.
  intros [<-|[<-|[<-|[<-|[<-|[]]]]]]; cbn [snd]; apply is_nan_scaled; lia.
Qed.

(* ------------------------------------------------------------------------- *)
(** ** [predict] always resolves *)

(** The promise resolves, and with the record spelled out here; [g] is the
    entry the sort puts first. *)
Lemma predict_resolves (f : formData) (random36 : string) :
  let table := mockBackend.carbonByRegion (mockBackend.baseCarbon f) in
  exists g,
    first_sorted mockBackend.by_carbon table = Some g
    /\ mockBackend.predict f random36 =
       Resolved
         {| predicted_carbon_kg := get table (region f);
            carbon_by_region := table;
            greenest_region := fst g;
            potential_savings_kg :=
              vsub (get table (region f)) (get table (fst g));
            savings_percentage :=
              ((vsub (get table (region f)) (get table (fst g))
                / to_number (get table (region f))) * of_Z 100)%js;
            result_region := region f;
            job_id := mockBackend.make_job_id random36 |}.
Proof.
  intros table.
  destruct (first_sorted_cons mockBackend.by_carbon
              ("us-east-1", (mockBackend.baseCarbon f * dec 38 100)%js)
              (tl table)) as [g Hg].
  exists g. split; [exact Hg|].
  unfold mockBackend.predict. fold table. unfold entries.
  pose proof (head_sort mockBackend.by_carbon table) as Hhd.
  change (first_sorted mockBackend.by_carbon table = Some g) in Hg.
  rewrite Hg in Hhd.
  destruct (sort mockBackend.by_carbon table) as [|[k v] rest];
    [discriminate|].
  inversion Hhd; subst g. reflexivity.
Qed.

(* ------------------------------------------------------------------------- *)
(** ** The snapshots the calculator holds *)

Lemma step_carbonData (s : state) (e : event) :
  carbonData (step s e) = carbonData s
  \/ carbonData (step s e) = initialTable
  \/ carbonData (step s e) = refreshedTable.
Proof.
  destruct e; cbn [step].
  - right; left; reflexivity.
  - left; reflexivity.
  - left; reflexivity.
  - right; right; reflexivity.
  - left. unfold handleSubmit.
    destruct (mockBackend.predict (form s) random36); reflexivity.
Qed.

Lemma reachable_carbonData (s : state) :
  reachable s ->
  carbonData s = []
  \/ carbonData s = initialTable
  \/ carbonData s = refreshedTable.
Proof.
  intros [es ->]. unfold run.
  induction es as [|e es IH] using rev_ind; [left; reflexivity|].
  rewrite fold_left_app. cbn [fold_left].
  destruct (step_carbonData (fold_left step es initial) e) as [E|[E|E]];
    rewrite E; tauto.
Qed.

Lemma reachable_keys (s : state) :
  reachable s -> carbonData s <> [] ->
  keys (carbonData s) = builtinRegions.
Proof.
  intros Hr Hne.
  destruct (reachable_carbonData Hr) as [E|[E|E]];
    [contradiction | rewrite E; reflexivity | rewrite E; reflexivity].
Qed.

(* ------------------------------------------------------------------------- *)
(** ** Estimation: energy and the per-region projection *)

(** An unknown total energy [E] cannot account for two regions at once when
    the products are taken against the refreshed intensities. *)
Lemma no_energy_explains_refreshed (E : number) :
  (E * dec 37 100)%js = Fin (323 # 250) ->
  (E * dec 27 100)%js = Fin (119 # 125) -> False.
Proof.
  unfold dec. destruct E as [ | | |e]; cbn [JS.mul]; try discriminate.
  intros H1 H2. inversion H1 as [H1']. inversion H2 as [H2'].
  assert (Q1 : (e * Qred (37 # 100) == 323 # 250)%Q)
    by (rewrite <- (Qred_correct (e * _)), H1'; reflexivity).
  assert (Q2 : (e * Qred (27 # 100) == 119 # 125)%Q)
    by (rewrite <- (Qred_correct (e * _)), H2'; reflexivity).
  rewrite Qred_correct in Q1, Q2. lra.
Qed.

(** C1, as the document states it, does not hold: whatever the dataset
    coefficient, after a refresh the carbon values [predict] returns are not
    the document's total energy multiplied by the snapshot's intensities
    (the default form, regions us-east-1 and us-west-2). *)
Lemma predict_not_design_estimate :
  ~ (exists DATASET_COEFFICIENT : number,
       forall (s : state) (f : formData) (random36 : string),
         reachable s ->
         exists p,
           mockBackend.predict f random36 = Resolved p
           /\ forall r info,
                In (r, info) (carbonData s) ->
                get (carbon_by_region p) r
                = Num (Design.carbonFor DATASET_COEFFICIENT f info)).
Proof.
  intros [c H].
  destruct (H (run [Mount; ClickUpdateCarbon]) defaultForm "0.4fzyo82mvyr")
    as [p [Hp Hall]]; [eexists; reflexivity|].
  vm_compute in Hp. inversion Hp; subst p; clear Hp.
  pose proof (Hall "us-east-1"
                (mkInfo "US East (N. Virginia)" (dec 37 100) "EPA 2024")
                (or_introl eq_refl)) as H1.
  pose proof (Hall "us-west-2"
                (mkInfo "US West (Oregon)" (dec 27 100) "EPA 2024")
                (or_intror (or_introl eq_refl))) as H2.
  cbn [carbon_by_region get String.eqb Ascii.eqb Bool.eqb] in H1, H2.
  unfold Design.carbonFor in H1, H2. cbn [intensity] in H1, H2.
  inversion H1 as [H1']. inversion H2 as [H2'].
  eapply no_energy_explains_refreshed; symmetry; eassumption.
Qed.

(** C1 (amended): for every form [predict] resolves; its base quantity is
    [duration_hours * gpu_count * 0.3 + dataset_size_gb * 0.01] (a flat 0.3
    per GPU-hour that does not consult the power estimate, and 0.01 per GB),
    and [carbon_by_region[r]] is that quantity multiplied by a built-in
    coefficient, which for each region is the intensity in the table
    [getCarbonData] serves. *)
Theorem predict_estimate (f : formData) (random36 : string) :
  exists p,
    mockBackend.predict f random36 = Resolved p
    /\ forall r info,
         In (r, info) initialTable ->
         get (carbon_by_region p) r
         = Num (((duration_hours f * gpu_count f * dec 3 10)
                 + (dataset_size_gb f * dec 1 100))
                * intensity info)%js.
Proof.
  destruct (predict_resolves f random36) as [g [_ Hp]].
  eexists. split; [exact Hp|].
  cbn [carbon_by_region].
  intros r info Hin.
  apply get_present; [rewrite keys_carbonByRegion; apply NoDup_builtinRegions|].
  unfold initialTable in Hin. cbn [mockBackend.getCarbonData] in Hin.
  unfold mockBackend.carbonByRegion, mockBackend.baseCarbon.
  destruct Hin as [E|[E|[E|[E|[E|[]]]]]]; inversion E; subst; cbn [intensity];
    auto 10 using in_eq, in_cons.
Qed.

(* ------------------------------------------------------------------------- *)
(** ** A region the snapshot does not have *)

(** C2, as stated, does not hold: for region "C", which no snapshot of the
    backend has, the promise resolves; the result carries [undefined] and
    [NaN]. *)
Lemma predict_unknown_region_resolves :
  ~ In "C" (keys initialTable)
  /\ mockBackend.predict
       {| model_type := "ResNet50"; batch_size := of_Z 32;
          dataset_size_gb := of_Z 100; gpu_count := of_Z 2;
          gpu_type := "V100"; duration_hours := of_Z 4; region := "C" |}
       "0.4fzyo82mvyr"
     = Resolved
         {| predicted_carbon_kg := Undefined;
            carbon_by_region :=
              [("us-east-1", Fin (323 # 250)); ("us-west-2", Fin (119 # 125));
               ("eu-west-1", Fin (136 # 125));
               ("ap-southeast-1", Fin (204 # 125));
               ("ca-central-1", Fin (51 # 125))];
            greenest_region := "ca-central-1";
            potential_savings_kg := NaN;
            savings_percentage := NaN;
            result_region := "C";
            job_id := "JOB_4FZYO82MV" |}.
Proof.
  split; [|vm_compute; reflexivity].
  simpl. intuition discriminate.
Qed.

(** C2 (amended): when the region of the form is absent from the snapshot
    the calculator holds, [predict] does not fail: the promise resolves with
    a [predicted_carbon_kg] that is not a number ([undefined], or, for a name
    such as "constructor" that [Object.prototype] has, the inherited member)
    and with [potential_savings_kg] and [savings_percentage] both [NaN]; the
    per-region table is the one every other form with the same quantities
    gets. *)
Theorem predict_unknown_region (s : state) (f : formData) (random36 : string) :
  reachable s -> carbonData s <> [] ->
  ~ In (region f) (keys (carbonData s)) ->
  exists p,
    mockBackend.predict f random36 = Resolved p
    /\ predicted_carbon_kg p
       = (if inherits (region f) then Inherited (region f) else Undefined)
    /\ (forall n, predicted_carbon_kg p <> Num n)
    /\ potential_savings_kg p = NaN
    /\ savings_percentage p = NaN
    /\ result_region p = region f
    /\ carbon_by_region p
       = mockBackend.carbonByRegion (mockBackend.baseCarbon f).
Proof.
  intros Hr Hne Habs.
  rewrite (reachable_keys Hr Hne) in Habs.
  destruct (predict_resolves f random36) as [g [_ Hp]].
  eexists. split; [exact Hp|].
  cbn [predicted_carbon_kg potential_savings_kg savings_percentage
       result_region carbon_by_region].
  rewrite (get_absent (mockBackend.carbonByRegion (mockBackend.baseCarbon f))
             (region f)) by (rewrite keys_carbonByRegion; exact Habs).
  destruct (inherits (region f)); repeat split; discriminate.
Qed.

Lemma predict_unknown_region_witness :
  exists p,
    mockBackend.predict
      (changeText "region" "constructor" defaultForm) "0.4fzyo82mvyr"
    = Resolved p
    /\ predicted_carbon_kg p = Inherited "constructor"
    /\ (forall n, predicted_carbon_kg p <> Num n)
    /\ potential_savings_kg p = NaN
    /\ savings_percentage p = NaN
    /\ result_region p = "constructor"
    /\ carbon_by_region p
       = mockBackend.carbonByRegion
           (mockBackend.baseCarbon
              (changeText "region" "constructor" defaultForm)).
Proof.
  apply (@predict_unknown_region (run [Mount])
           (changeText "region" "constructor" defaultForm) "0.4fzyo82mvyr").
  - exists [Mount]. reflexivity.
  - discriminate.
  - simpl. intuition discriminate.
Defined.

(* ------------------------------------------------------------------------- *)
(** ** One entry per region of the snapshot *)

(** C3: whatever non-empty snapshot the calculator holds at the time of the
    estimation, and whatever the form, the returned [carbon_by_region] has
    the snapshot's regions as its keys, each once, in the same order. *)
Theorem carbon_by_region_keys (s : state) (f : formData) (random36 : string) :
  reachable s -> carbonData s <> [] ->
  exists p,
    mockBackend.predict f random36 = Resolved p
    /\ keys (carbon_by_region p) = keys (carbonData s)
    /\ NoDup (keys (carbon_by_region p))
    /\ forall r, In r (keys (carbonData s)) <->
                 exists v, get (carbon_by_region p) r = Num v.
Proof.
  intros Hr Hne.
  destruct (predict_resolves f random36) as [g [_ Hp]].
  eexists. split; [exact Hp|]. cbn [carbon_by_region].
  rewrite (reachable_keys Hr Hne), keys_carbonByRegion.
  split; [reflexivity|]. split; [apply NoDup_builtinRegions|].
  intros r. split.
  - intros Hin. rewrite <- (keys_carbonByRegion (mockBackend.baseCarbon f)) in Hin.
    unfold keys in Hin. apply in_map_iff in Hin. destruct Hin as [[k v] [<- Hin]].
    exists v. apply get_present; [|exact Hin].
    rewrite keys_carbonByRegion. apply NoDup_builtinRegions.
  - intros [v Hv].
    apply get_Num_in in Hv. apply (in_map fst) in Hv. exact Hv.
Qed.

Lemma carbon_by_region_keys_witness :
  exists p,
    mockBackend.predict defaultForm "0.4fzyo82mvyr" = Resolved p
    /\ keys (carbon_by_region p)
       = keys (carbonData (run [Mount; ClickUpdateCarbon]))
    /\ NoDup (keys (carbon_by_region p))
    /\ forall r, In r (keys (carbonData (run [Mount; ClickUpdateCarbon]))) <->
                 exists v, get (carbon_by_region p) r = Num v.
Proof.
  apply (@carbon_by_region_keys (run [Mount; ClickUpdateCarbon])
           defaultForm "0.4fzyo82mvyr").
  - exists [Mount; ClickUpdateCarbon]. reflexivity.
  - discriminate.
Defined.

(* ------------------------------------------------------------------------- *)
(** ** The greenest region *)

(** With a positive base the minimum is unique and sits at "ca-central-1". *)
Lemma greenest_positive (b : Q) (g : string * number) :
  (0 < b)%Q ->
  first_sorted mockBackend.by_carbon (mockBackend.carbonByRegion (Fin b))
  = Some g ->
  fst g = "ca-central-1".
Proof.
  intros Hb Hg.
  assert (Hnan : forall e, In e (mockBackend.carbonByRegion (Fin b)) ->
                           is_nan (snd e) = false).
  { intros e He. rewrite (@carbonByRegion_nan _ _ He). reflexivity. }
  destruct (@first_sorted_by_carbon _ _ Hnan Hg)
    as [Hmin (before & after & Hsplit & _)].
  assert (Hin : In g (mockBackend.carbonByRegion (Fin b)))
    by (rewrite Hsplit; apply in_elt).
  specialize (Hmin ("ca-central-1", (Fin b * dec 12 100)%js)).
  unfold mockBackend.carbonByRegion, dec in Hin, Hmin. cbn [JS.mul] in Hin, Hmin.
  assert (H5 : leb (snd g) (Fin (Qred (b * Qred (12 # 100)))) = true)
    by (apply Hmin; auto 10 using in_eq, in_cons).
  clear Hmin.
  destruct Hin as [<-|[<-|[<-|[<-|[<-|[]]]]]]; try reflexivity;
    cbn [snd] in H5; apply leb_Fin in H5; rewrite !Qred_correct in H5; lra.
Qed.




(* ------------------------------------------------------------------------- *)
(** ** Savings *)

Lemma carbonByRegion_zero (b : Q) :
  (b == 0)%Q ->
  mockBackend.carbonByRegion (Fin b) = mockBackend.carbonByRegion (Fin 0).
Proof.
  intros Hb. unfold mockBackend.carbonByRegion, dec. cbn [JS.mul].
  assert (H : forall k, Qred (b * k) = Qred (0 * k))
    by (intro k; apply Qred_complete; rewrite Hb; reflexivity).
  rewrite !H. reflexivity.
Qed.

Lemma isZero_Fin (n : number) :
  isZero n = true -> exists q, n = Fin q /\ (q == 0)%Q.
Proof.
  destruct n as [ | | |q]; cbn [isZero]; try discriminate.
  intros H. apply Qeq_bool_iff in H. exists q. split; [reflexivity|exact H].
Qed.

Lemma isFinite_Fin (n : number) : isFinite n = true -> exists q, n = Fin q.
Proof.
  destruct n as [ | | |q]; cbn [isFinite]; try discriminate.
  intros _. exists q. reflexivity.
Qed.

Lemma emptyWorkload_baseCarbon (f : formData) :
  emptyWorkload f = true ->
  exists b, mockBackend.baseCarbon f = Fin b /\ (b == 0)%Q.
Proof.
  unfold emptyWorkload. rewrite andb_true_iff, orb_true_iff, !andb_true_iff.
  intros [Hz Hdg].
  apply isZero_Fin in Hz. destruct Hz as [z [Ez Hz]].
  assert (H : exists d g, duration_hours f = Fin d /\ gpu_count f = Fin g
                          /\ (d * g == 0)%Q).
  { destruct Hdg as [[Hd Hg]|[Hd Hg]].
    - apply isZero_Fin in Hd. destruct Hd as [d [Ed Hd]].
      apply isFinite_Fin in Hg. destruct Hg as [g Eg].
      exists d, g. repeat split; try assumption. rewrite Hd. ring.
    - apply isFinite_Fin in Hd. destruct Hd as [d Ed].
      apply isZero_Fin in Hg. destruct Hg as [g [Eg Hg]].
      exists d, g. repeat split; try assumption. rewrite Hg. ring. }
  destruct H as [d [g [Ed [Eg Hdg0]]]].
  unfold mockBackend.baseCarbon. rewrite Ez, Ed, Eg. unfold dec.
  cbn [JS.mul JS.add]. eexists. split; [reflexivity|].
  rewrite !Qred_correct, Hdg0, Hz. ring.
Qed.

(** C6, as stated, does not hold: with every quantity zero the carbon of
    the selected region is 0 and [savings_percentage] is 0/0, that is
    [NaN], not 0. *)
Lemma savings_percentage_zero_carbon :
  exists p,
    mockBackend.predict
      (changeNumber "dataset_size_gb" (of_Z 0)
         (changeNumber "duration_hours" (of_Z 0) defaultForm))
      "0.4fzyo82mvyr" = Resolved p
    /\ get (carbon_by_region p) (result_region p) = Num (Fin 0)
    /\ potential_savings_kg p = Fin 0
    /\ savings_percentage p = NaN
    /\ savings_percentage p <> Fin 0.
Proof.
  eexists. split; [vm_compute; reflexivity|].
  cbn [carbon_by_region result_region potential_savings_kg savings_percentage].
  repeat split; try reflexivity. discriminate.
Qed.

(** C6 (amended): for every form, [potential_savings_kg] is the carbon of
    the selected region minus the carbon of the greenest one, and
    [savings_percentage] is that difference divided by the carbon of the
    selected region, times 100.  There is no guard against a zero divisor:
    for a workload with nothing to do (dataset size 0, and duration 0 or
    GPU count 0 with the other finite) every carbon value is 0, the
    quotient is 0/0 and [savings_percentage] is [NaN]. *)
Theorem savings_formula (f : formData) (random36 : string) :
  exists p,
    mockBackend.predict f random36 = Resolved p
    /\ potential_savings_kg p
       = vsub (get (carbon_by_region p) (region f))
              (get (carbon_by_region p) (greenest_region p))
    /\ savings_percentage p
       = ((potential_savings_kg p
           / to_number (get (carbon_by_region p) (region f)))
          * of_Z 100)%js
    /\ (emptyWorkload f = true ->
        (forall r v, In (r, v) (carbon_by_region p) -> v = Fin 0)
        /\ savings_percentage p = NaN).
Proof.
  destruct (predict_resolves f random36) as [g [Hg Hp]]. cbv zeta in Hg.
  eexists. split; [exact Hp|].
  cbn [potential_savings_kg savings_percentage carbon_by_region
       greenest_region].
  split; [reflexivity|]. split; [reflexivity|].
  intros Hempty.
  destruct (emptyWorkload_baseCarbon f Hempty) as [b [Eb Hb]].
  rewrite Eb, (@carbonByRegion_zero b Hb) in Hg |- *.
  vm_compute in Hg. inversion Hg; subst g; clear Hg. cbn [fst].
  split.
  { unfold mockBackend.carbonByRegion.
    intros r v [E|[E|[E|[E|[E|[]]]]]]; inversion E; vm_compute; reflexivity. }
  destruct (in_dec string_dec (region f) builtinRegions) as [Hin|Hout].
  - unfold builtinRegions in Hin.
    destruct Hin as [<-|[<-|[<-|[<-|[<-|[]]]]]]; vm_compute; reflexivity.
  - rewrite (get_absent (mockBackend.carbonByRegion (Fin 0)) (region f))
      by (rewrite keys_carbonByRegion; exact Hout).
    destruct (inherits (region f)); reflexivity.
Qed.

(* ------------------------------------------------------------------------- *)
(** ** The power estimate *)

(** No catalogue entry is falsy, so for a name that [Object.prototype] does
    not have [||] falls back exactly when the key is missing. *)
Lemma or_default_modelPower (k : string) (fallback : number) :
  inherits k = false ->
  JS.or (get mockBackend.modelPower k) (Num fallback)
  = Num match Design.catalogued mockBackend.modelPower k with
        | Some w => w
        | None => fallback
        end.
Proof.
  intros Hk. rewrite catalogued_get, Hk.
  destruct (Design.catalogued mockBackend.modelPower k) as [w|] eqn:E;
    [|reflexivity].
  apply catalogued_in in E. unfold mockBackend.modelPower in E.
  destruct E as [E|[E|[E|[E|[E|[E|[]]]]]]]; inversion E; reflexivity.
Qed.

Lemma or_default_gpuPower (k : string) (fallback : number) :
  inherits k = false ->
  JS.or (get mockBackend.gpuPower k) (Num fallback)
  = Num match Design.catalogued mockBackend.gpuPower k with
        | Some w => w
        | None => fallback
        end.
Proof.
  intros Hk. rewrite catalogued_get, Hk.
  destruct (Design.catalogued mockBackend.gpuPower k) as [w|] eqn:E;
    [|reflexivity].
  apply catalogued_in in E. unfold mockBackend.gpuPower in E.
  destruct E as [E|[E|[E|[]]]]; inversion E; reflexivity.
Qed.

(** For names that [Object.prototype] does not have, the estimate is the
    base wattage plus the per-GPU wattage times the GPU count, with 200 and
    250 for types outside the catalogue. *)
Lemma calculateEstimatedPower_catalogue (f : formData) :
  inherits (model_type f) = false -> inherits (gpu_type f) = false ->
  mockBackend.calculateEstimatedPower f
  = Sum (Design.basePower (model_type f)
         + Design.perGpuPower (gpu_type f) * gpu_count f)%js.
Proof.
  intros Hm Hg.
  unfold mockBackend.calculateEstimatedPower, Design.basePower,
    Design.perGpuPower.
  rewrite (or_default_modelPower _ _ Hm), (or_default_gpuPower _ _ Hg).
  reflexivity.
Qed.

(** C5 fails on the code for a type named like a member of
    [Object.prototype].  "constructor" is in neither catalogue, so the
    documented estimate for the default form is 200 + 300 * 2 with it as
    model type and 180 + 250 * 2 with it as GPU type; the lookup finds the
    inherited member instead, [||] does not fall back, and the function
    returns a text in the first case and [NaN] in the second. *)
Theorem calculateEstimatedPower_inherited_name :
  let asModel := changeText "model_type" "constructor" defaultForm in
  let asGpu := changeText "gpu_type" "constructor" defaultForm in
  ~ In "constructor" (keys mockBackend.modelPower)
  /\ ~ In "constructor" (keys mockBackend.gpuPower)
  /\ (Design.basePower (model_type asModel)
      + Design.perGpuPower (gpu_type asModel) * gpu_count asModel)%js
     = of_Z 800
  /\ mockBackend.calculateEstimatedPower asModel
     = MemberText "constructor" (of_Z 600)
  /\ (Design.basePower (model_type asGpu)
      + Design.perGpuPower (gpu_type asGpu) * gpu_count asGpu)%js
     = of_Z 680
  /\ mockBackend.calculateEstimatedPower asGpu = Sum NaN.
Proof.
  cbv zeta.
  split; [simpl; intuition discriminate|].
  split; [simpl; intuition discriminate|].
  repeat split; vm_compute; reflexivity.
Qed.

(* ------------------------------------------------------------------------- *)
(** ** Submitting twice *)

Lemma handleSubmit_result (random36 : string) (s : state) :
  exists p,
    mockBackend.predict (form s) random36 = Resolved p
    /\ handleSubmit random36 s
       = setLoading false (setResult p (setError "" (setLoading true s))).
Proof.
  destruct (predict_resolves (form s) random36) as [g [_ Hp]].
  eexists. split; [exact Hp|].
  unfold handleSubmit. rewrite Hp. reflexivity.
Qed.

(** C7: submitting the same form twice in a row, with the snapshot
    untouched, gives two results that agree on [carbon_by_region],
    [greenest_region] and [potential_savings_kg] (and on every other field
    but [job_id], which follows the random draw of each call). *)
Theorem predict_twice (s : state) (draw1 draw2 : string) :
  let s1 := step s (Submit draw1) in
  let s2 := step s1 (Submit draw2) in
  exists p1 p2,
    result s1 = Some p1 /\ result s2 = Some p2
    /\ form s2 = form s /\ carbonData s2 = carbonData s
    /\ carbon_by_region p1 = carbon_by_region p2
    /\ greenest_region p1 = greenest_region p2
    /\ potential_savings_kg p1 = potential_savings_kg p2
    /\ predicted_carbon_kg p1 = predicted_carbon_kg p2
    /\ savings_percentage p1 = savings_percentage p2
    /\ result_region p1 = result_region p2
    /\ job_id p1 = mockBackend.make_job_id draw1
    /\ job_id p2 = mockBackend.make_job_id draw2.
Proof.
  cbn [step].
  destruct (handleSubmit_result draw1 s) as [p1 [Hp1 Hs1]].
  rewrite Hs1.
  destruct (handleSubmit_result draw2
              (setLoading false
                 (setResult p1 (setError "" (setLoading true s)))))
    as [p2 [Hp2 Hs2]].
  rewrite Hs2. cbn [form setLoading setResult setError] in Hp2.
  exists p1, p2.
  destruct (predict_resolves (form s) draw1) as [g1 [Hg1 Hq1]].
  destruct (predict_resolves (form s) draw2) as [g2 [Hg2 Hq2]].
  cbv zeta in Hg1, Hg2. rewrite Hg1 in Hg2. inversion Hg2; subst g2.
  rewrite Hq1 in Hp1. rewrite Hq2 in Hp2.
  inversion Hp1; subst p1. inversion Hp2; subst p2.
  cbn. repeat split.
Qed.

(* ------------------------------------------------------------------------- *)
(** ** Valid workloads *)

Lemma ordinaryQuantity_Fin (n : number) :
  ordinaryQuantity n = true -> exists q, n = Fin q /\ (0 < q)%Q.
Proof.
  destruct n as [ | | |q]; cbn [ordinaryQuantity]; try discriminate.
  rewrite andb_true_iff. intros [Hlo _]. apply Qle_bool_iff in Hlo.
  exists q. split; [reflexivity|].
  apply Qlt_le_trans with (1 # 2 ^ 300); [reflexivity|exact Hlo].
Qed.

Lemma ordinaryWorkload_baseCarbon (f : formData) :
  ordinaryWorkload f = true ->
  exists b, mockBackend.baseCarbon f = Fin b /\ (0 < b)%Q.
Proof.
  unfold ordinaryWorkload. rewrite !andb_true_iff.
  intros [[Hd Hg] Hz].
  apply ordinaryQuantity_Fin in Hd. destruct Hd as [d [Ed Hd]].
  apply ordinaryQuantity_Fin in Hg. destruct Hg as [g [Eg Hg]].
  apply ordinaryQuantity_Fin in Hz. destruct Hz as [z [Ez Hz]].
  unfold mockBackend.baseCarbon. rewrite Ez, Ed, Eg. unfold dec.
  cbn [JS.mul JS.add]. eexists. split; [reflexivity|].
  rewrite !Qred_correct.
  assert (Hdg : (0 < d * g)%Q) by (apply Qmult_lt_0_compat; assumption).
  lra.
Qed.

Lemma carbonByRegion_positive (b : Q) (e : string * number) :
  (0 < b)%Q -> In e (mockBackend.carbonByRegion (Fin b)) ->
  exists v, snd e = Fin v /\ (0 < v)%Q.
Proof.
  intros Hb. unfold mockBackend.carbonByRegion, dec. cbn [JS.mul].
  intros [<-|[<-|[<-|[<-|[<-|[]]]]]]; cbn [snd]; eexists;
    (split; [reflexivity|]); rewrite !Qred_correct; lra.
Qed.

(** C8, as stated, does not hold: a workload that meets every field
    constraint can have an infinite duration (a float above 0); its region is
    in the snapshot and all intensities are non-negative, yet
    [savings_percentage] is [NaN], which lies in no interval. *)
Lemma savings_percentage_infinite_duration :
  let f := changeNumber "duration_hours" PInf defaultForm in
  Design.validWorkload f = true
  /\ Design.nonNegative initialTable = true
  /\ In (region f) (keys initialTable)
  /\ exists p,
       mockBackend.predict f "0.4fzyo82mvyr" = Resolved p
       /\ predicted_carbon_kg p = Num PInf
       /\ potential_savings_kg p = NaN
       /\ savings_percentage p = NaN
       /\ leb zero (savings_percentage p) = false.
Proof.
  cbv zeta. split; [vm_compute; reflexivity|].
  split; [vm_compute; reflexivity|].
  split; [simpl; tauto|].
  eexists. split; [vm_compute; reflexivity|].
  cbn [predicted_carbon_kg potential_savings_kg savings_percentage].
  repeat split; reflexivity.
Qed.

(** C8 (amended): for every valid workload whose duration, GPU count and
    dataset size are of ordinary magnitude (between 2^-300 and 2^300) and
    whose region is one of the snapshot's, with a snapshot of non-negative
    intensities, [savings_percentage] is a finite number between 0 and
    100. *)
Theorem savings_percentage_range
    (s : state) (f : formData) (random36 : string) :
  reachable s ->
  Design.nonNegative (carbonData s) = true ->
  Design.validWorkload f = true ->
  ordinaryWorkload f = true ->
  In (region f) (keys (carbonData s)) ->
  exists p pct,
    mockBackend.predict f random36 = Resolved p
    /\ savings_percentage p = Fin pct
    /\ (0 <= pct <= 100)%Q.
Proof.
  intros Hr _ _ Hordinary Hregion.
  assert (Hne : carbonData s <> []).
  { intros E. rewrite E in Hregion. destruct Hregion. }
  rewrite (reachable_keys Hr Hne) in Hregion.
  destruct (ordinaryWorkload_baseCarbon f Hordinary) as [b [Eb Hb]].
  destruct (predict_resolves f random36) as [[k m] [Hg Hp]]. cbv zeta in Hg.
  rewrite Eb in Hg, Hp.
  set (table := mockBackend.carbonByRegion (Fin b)) in *.
  assert (Hkeys : NoDup (keys table))
    by (unfold table; rewrite keys_carbonByRegion; apply NoDup_builtinRegions).
  assert (Hnan : forall e, In e table -> is_nan (snd e) = false).
  { intros e He. unfold table in He.
    rewrite (@carbonByRegion_nan _ _ He). reflexivity. }
  destruct (@first_sorted_by_carbon _ _ Hnan Hg)
    as [Hmin (before & after & Hsplit & _)].
  assert (Hgin : In (k, m) table) by (rewrite Hsplit; apply in_elt).
  rewrite <- (keys_carbonByRegion (Fin b)) in Hregion. fold table in Hregion.
  unfold keys in Hregion. apply in_map_iff in Hregion.
  destruct Hregion as [[r v] [Er Hcur]]. cbn [fst] in Er. subst r.
  destruct (@carbonByRegion_positive b _ Hb Hcur) as [c [Ec Hc]].
  destruct (@carbonByRegion_positive b _ Hb Hgin) as [mq [Em Hm]].
  cbn [snd] in Ec, Em. subst v m.
  specialize (Hmin _ Hcur). cbn [snd] in Hmin. apply leb_Fin in Hmin.
  cbn [fst] in Hp.
  rewrite (@get_present table _ _ Hkeys Hcur),
    (@get_present table _ _ Hkeys Hgin) in Hp.
  unfold vsub in Hp. cbn [to_number JS.sub JS.neg JS.add JS.div] in Hp.
  unfold sgn in Hp.
  destruct (Qcompare_spec 0 c) as [E|_|E]; try lra.
  cbn [JS.mul of_Z] in Hp.
  eexists. eexists. split; [exact Hp|].
  cbn [savings_percentage]. split; [reflexivity|].
  rewrite !Qred_correct.
  set (t := ((c + - mq) / c)%Q).
  assert (Ht0 : (0 <= t)%Q).
  { unfold t. apply Qle_shift_div_l; [exact Hc|]. lra. }
  assert (Ht1 : (t <= 1)%Q).
  { unfold t. apply Qle_shift_div_r; [exact Hc|]. lra. }
  unfold inject_Z. lra.
Qed.

Lemma savings_percentage_range_witness :
  exists p pct,
    mockBackend.predict defaultForm "0.4fzyo82mvyr" = Resolved p
    /\ savings_percentage p = Fin pct
    /\ (0 <= pct <= 100)%Q.
Proof.
  apply (@savings_percentage_range (run [Mount; ClickUpdateCarbon])
           defaultForm "0.4fzyo82mvyr").
  - exists [Mount; ClickUpdateCarbon]. reflexivity.
  - vm_compute. reflexivity.
  - vm_compute. reflexivity.
  - vm_compute. reflexivity.
  - simpl. tauto.
Defined.

(* ------------------------------------------------------------------------- *)
(** ** Refreshing the snapshot *)

(** C9, as stated, does not hold: handed the table [getCarbonData] serves,
    [refreshCarbonData] does not return it; and [getCarbonData], read right
    after, does not return what the refresh returned. *)
Lemma refresh_ignores_argument :
  mockBackend.refreshCarbonData (Some initialTable) <> Resolved initialTable
  /\ mockBackend.getCarbonData <> mockBackend.refreshCarbonData (Some initialTable).
Proof.
  split; vm_compute; intros H; inversion H.
Qed.

(** C9 (amended): [refreshCarbonData] takes no snapshot; whatever it is
    called with it resolves with one fixed table.  The calculator stores
    exactly that table as its snapshot in a single update that touches
    neither the form nor the last result, so a read of the calculator's
    snapshot right after the refresh finds the table the refresh returned.
    [getCarbonData] keeps serving its own table. *)
Theorem refresh_round_trip (s : state) (X : option snapshot) :
  exists R,
    mockBackend.refreshCarbonData X = Resolved R
    /\ R = refreshedTable
    /\ carbonData (step s ClickUpdateCarbon) = R
    /\ form (step s ClickUpdateCarbon) = form s
    /\ result (step s ClickUpdateCarbon) = result s
    /\ updatingCarbon (step s ClickUpdateCarbon) = false
    /\ mockBackend.getCarbonData = Resolved initialTable.
Proof.
  exists refreshedTable. repeat split.
Qed.

(* ------------------------------------------------------------------------- *)
(** ** The prediction does not read the snapshot *)

(** C10, as stated, does not hold in its last part: with an infinite
    duration the base quantity is +Infinity, which is positive, every carbon
    value is +Infinity, the differences the sort compares are [NaN], and the
    greenest region is the first of the table, "us-east-1". *)
Lemma greenest_infinite_base :
  let f := changeNumber "duration_hours" PInf defaultForm in
  mockBackend.baseCarbon f = PInf
  /\ ltb zero (mockBackend.baseCarbon f) = true
  /\ exists p,
       mockBackend.predict f "0.4fzyo82mvyr" = Resolved p
       /\ (forall r v, In (r, v) (carbon_by_region p) -> v = PInf)
       /\ greenest_region p = "us-east-1"
       /\ greenest_region p <> "ca-central-1".
Proof.
  cbv zeta. split; [vm_compute; reflexivity|].
  split; [vm_compute; reflexivity|].
  eexists. split; [vm_compute; reflexivity|].
  cbn [carbon_by_region greenest_region].
  split; [|split; [reflexivity|discriminate]].
  intros r v [E|[E|[E|[E|[E|[]]]]]]; inversion E; reflexivity.
Qed.

(** C10 (amended): two states of the calculator that hold the same form,
    whatever their snapshots, get the same prediction from a submission,
    field by field; the per-region values are the base quantity times the
    built-in coefficients 0.38, 0.28, 0.32, 0.48 and 0.12; and whenever the
    duration, the GPU count and the dataset size are positive numbers of
    ordinary magnitude (between 2^-300 and 2^300), so that the base
    quantity is a positive finite number, the greenest region is
    "ca-central-1". *)
Theorem predict_ignores_snapshot (s1 s2 : state) (random36 : string) :
  form s1 = form s2 ->
  result (step s1 (Submit random36)) = result (step s2 (Submit random36))
  /\ exists p,
       result (step s1 (Submit random36)) = Some p
       /\ mockBackend.predict (form s1) random36 = Resolved p
       /\ carbon_by_region p
          = [ ("us-east-1", (mockBackend.baseCarbon (form s1) * dec 38 100)%js);
              ("us-west-2", (mockBackend.baseCarbon (form s1) * dec 28 100)%js);
              ("eu-west-1", (mockBackend.baseCarbon (form s1) * dec 32 100)%js);
              ("ap-southeast-1",
                (mockBackend.baseCarbon (form s1) * dec 48 100)%js);
              ("ca-central-1",
                (mockBackend.baseCarbon (form s1) * dec 12 100)%js) ]
       /\ (ordinaryWorkload (form s1) = true ->
           greenest_region p = "ca-central-1").
Proof.
  intros Hform. cbn [step].
  destruct (handleSubmit_result random36 s1) as [p1 [Hp1 Hs1]].
  destruct (handleSubmit_result random36 s2) as [p2 [Hp2 Hs2]].
  rewrite <- Hform, Hp1 in Hp2. inversion Hp2; subst p2.
  rewrite Hs1, Hs2. split; [reflexivity|].
  exists p1. split; [reflexivity|]. split; [exact Hp1|].
  destruct (predict_resolves (form s1) random36) as [g [Hg Hq]].
  cbv zeta in Hg. rewrite Hq in Hp1. inversion Hp1; subst p1.
  cbn [carbon_by_region greenest_region]. split; [reflexivity|].
  intros Hordinary.
  destruct (ordinaryWorkload_baseCarbon (form s1) Hordinary) as [b [Eb Hb]].
  rewrite Eb in Hg. exact (greenest_positive Hb Hg).
Qed.

Lemma predict_ignores_snapshot_witness :
  carbonData (run [Mount]) <> carbonData (run [Mount; ClickUpdateCarbon])
  /\ result (step (run [Mount]) (Submit "0.4fzyo82mvyr"))
     = result (step (run [Mount; ClickUpdateCarbon]) (Submit "0.4fzyo82mvyr"))
  /\ exists p,
       result (step (run [Mount]) (Submit "0.4fzyo82mvyr")) = Some p
       /\ greenest_region p = "ca-central-1".
Proof.
  split; [vm_compute; intros H; inversion H|].
  destruct (@predict_ignores_snapshot (run [Mount])
              (run [Mount; ClickUpdateCarbon]) "0.4fzyo82mvyr" eq_refl)
    as [Heq [p [Hres [_ [_ Hgreen]]]]].
  split; [exact Heq|].
  exists p. split; [exact Hres|].
  apply Hgreen. vm_compute. reflexivity.
Defined.

(* ------------------------------------------------------------------------- *)
(** ** What a prediction depends on *)

(** [predict] reads four fields of the form. *)
Lemma predict_reads (f f' : formData) (random36 : string) :
  duration_hours f = duration_hours f' ->
  gpu_count f = gpu_count f' ->
  dataset_size_gb f = dataset_size_gb f' ->
  region f = region f' ->
  mockBackend.predict f random36 = mockBackend.predict f' random36.
Proof.
  intros Hd Hg Hs Hr. unfold mockBackend.predict, mockBackend.baseCarbon.
  rewrite Hd, Hg, Hs, Hr. reflexivity.
Qed.

Lemma handleSubmit_reads (s s' : state) (random36 : string) :
  mockBackend.predict (form s) random36
  = mockBackend.predict (form s') random36 ->
  result (handleSubmit random36 s) = result (handleSubmit random36 s').
Proof.
  intros E.
  destruct (handleSubmit_result random36 s) as [p [Hp ->]].
  destruct (handleSubmit_result random36 s') as [p' [Hp' ->]].
  rewrite E, Hp' in Hp. inversion Hp. reflexivity.
Qed.

(** X1: changing the model type, the GPU type or the batch size before
    submitting does not change the prediction, although the first two change
    the power estimate shown next to the form. *)
Theorem submit_ignores_model_gpu_batch
    (s : state) (text : string) (parsed : number) (random36 : string) :
  result (step (step s (ChangeText "model_type" text)) (Submit random36))
  = result (step s (Submit random36))
  /\ result (step (step s (ChangeText "gpu_type" text)) (Submit random36))
     = result (step s (Submit random36))
  /\ result (step (step s (ChangeNumber "batch_size" parsed)) (Submit random36))
     = result (step s (Submit random36)).
Proof.
  repeat split; cbn [step]; apply handleSubmit_reads;
    apply predict_reads; reflexivity.
Qed.

(** The percentage for a current value [c] and a best value [m]. *)
Lemma percentage_Fin (c m : Q) :
  (0 < c)%Q ->
  ((vsub (Num (Fin c)) (Num (Fin m)) / Fin c) * of_Z 100)%js
  = Fin (Qred (Qred (Qred (c + Qred (- m)) / c) * inject_Z 100)).
Proof.
  intros Hc. unfold vsub. cbn [to_number JS.sub JS.neg JS.add JS.div].
  unfold sgn. destruct (Qcompare_spec 0 c) as [E|_|E]; try lra.
  reflexivity.
Qed.

(** With both values scaled from one positive base, the base cancels. *)
Lemma percentage_scaled (b : Q) (nk nm : Z) :
  (0 < b)%Q -> (0 < nk)%Z ->
  ((vsub (Num (Fin b * dec nk 100)%js) (Num (Fin b * dec nm 100)%js)
    / (Fin b * dec nk 100)) * of_Z 100)%js
  = Fin (Qred (((inject_Z nk - inject_Z nm) / inject_Z nk) * inject_Z 100)).
Proof.
  intros Hb Hk. unfold dec. cbn [JS.mul].
  assert (Hknz : ~ (inject_Z nk == 0)%Q).
  { unfold inject_Z, Qeq. cbn [Qnum Qden]. lia. }
  assert (Hc : (0 < Qred (b * Qred (nk # 100)))%Q).
  { rewrite !Qred_correct. apply Qmult_lt_0_compat; [exact Hb|].
    unfold Qlt. cbn [Qnum Qden]. lia. }
  rewrite (percentage_Fin _ Hc). f_equal. apply Qred_complete.
  rewrite !Qred_correct.
  assert (E1 : (nk # 100 == inject_Z nk / inject_Z 100)%Q).
  { unfold Qeq, Qdiv, Qmult, Qinv, inject_Z. cbn. lia. }
  assert (E2 : (nm # 100 == inject_Z nm / inject_Z 100)%Q).
  { unfold Qeq, Qdiv, Qmult, Qinv, inject_Z. cbn. lia. }
  rewrite E1, E2.
  field.
  repeat split;
    first [exact Hknz | lra | (unfold inject_Z, Qeq; cbn; lia)].
Qed.

(** The coefficient [predict] holds for each of its regions, whatever the
    base. *)
Lemma get_builtin (r : string) :
  In r builtinRegions ->
  exists n : Z,
    (12 <= n)%Z
    /\ (n = 12%Z <-> r = "ca-central-1")
    /\ forall base,
         get (mockBackend.carbonByRegion base) r = Num (base * dec n 100)%js.
Proof.
  unfold builtinRegions.
  intros [<-|[<-|[<-|[<-|[<-|[]]]]]];
    [exists 38%Z | exists 28%Z | exists 32%Z | exists 48%Z | exists 12%Z];
    (split; [lia|]);
    (split; [first [split; [lia|discriminate] | tauto]|]);
    intros base; reflexivity.
Qed.

(** The record [predict] resolves with when the base is a positive number. *)
Lemma predict_positive (f : formData) (random36 : string) (b : Q) :
  mockBackend.baseCarbon f = Fin b -> (0 < b)%Q ->
  let table := mockBackend.carbonByRegion (Fin b) in
  let best := Num (Fin b * dec 12 100)%js in
  mockBackend.predict f random36 =
  Resolved
    {| predicted_carbon_kg := get table (region f);
       carbon_by_region := table;
       greenest_region := "ca-central-1";
       potential_savings_kg := vsub (get table (region f)) best;
       savings_percentage :=
         ((vsub (get table (region f)) best
           / to_number (get table (region f))) * of_Z 100)%js;
       result_region := region f;
       job_id := mockBackend.make_job_id random36 |}.
Proof.
  intros Eb Hb table best.
  destruct (predict_resolves f random36) as [g [Hg Hp]]. cbv zeta in Hg.
  rewrite Eb in Hg, Hp. rewrite Hp.
  rewrite (greenest_positive Hb Hg). reflexivity.
Qed.

(** X3: for a duration, a GPU count and a dataset size that are positive
    numbers of ordinary magnitude (between 2^-300 and 2^300) and a region
    of the table, the savings are a non-negative number; they are zero
    exactly when the selected region is the greenest one, and then the
    percentage is 0. *)
Theorem savings_zero_iff_greenest (f : formData) (random36 : string) :
  ordinaryWorkload f = true ->
  In (region f) builtinRegions ->
  exists p saved,
    mockBackend.predict f random36 = Resolved p
    /\ potential_savings_kg p = Fin saved
    /\ (0 <= saved)%Q
    /\ ((saved == 0)%Q <-> region f = greenest_region p)
    /\ (region f = greenest_region p -> savings_percentage p = Fin 0).
Proof.
  intros Hordinary Hin.
  destruct (ordinaryWorkload_baseCarbon f Hordinary) as [b [Eb Hb]].
  rewrite (predict_positive f random36 Eb Hb).
  destruct (get_builtin Hin) as [n [Hn [Hiff Hget]]].
  eexists. eexists. split; [reflexivity|].
  cbn [potential_savings_kg greenest_region savings_percentage].
  rewrite Hget. unfold vsub, dec. cbn [to_number JS.mul JS.sub JS.neg JS.add].
  split; [reflexivity|].
  assert (Hs : (Qred (Qred (b * Qred (n # 100))
                      + Qred (- Qred (b * Qred (12 # 100))))
                == b * (inject_Z (n - 12) / inject_Z 100))%Q).
  { rewrite !Qred_correct.
    assert (E1 : (n # 100 == inject_Z n / inject_Z 100)%Q)
      by (unfold Qeq, Qdiv, Qmult, Qinv, inject_Z; cbn; lia).
    assert (E2 : (inject_Z (n - 12) == inject_Z n - inject_Z 12)%Q)
      by (unfold Qeq, Qminus, Qplus, Qopp, inject_Z; cbn; lia).
    rewrite E1, E2. field. }
  assert (Hd : (0 <= inject_Z (n - 12) / inject_Z 100)%Q).
  { apply Qle_shift_div_l; [reflexivity|].
    unfold Qle, Qmult, inject_Z. cbn. lia. }
  split.
  { rewrite Hs. apply Qmult_le_0_compat; [lra|exact Hd]. }
  split.
  { rewrite Hs, <- Hiff. split.
    - intros Hz. apply Qmult_integral in Hz. destruct Hz as [Hz|Hz]; [lra|].
      unfold Qeq, Qdiv, Qmult, Qinv, inject_Z in Hz. cbn in Hz. lia.
    - intros ->. change (inject_Z (12 - 12)) with 0%Q.
      unfold Qdiv. rewrite Qmult_0_l, Qmult_0_r. reflexivity. }
  intros Hr. apply Hiff in Hr. subst n.
  change (Fin (Qred (b * Qred (12 # 100)))) with (Fin b * dec 12 100)%js.
  change (Fin (Qred (Qred (b * Qred (12 # 100))
                     + Qred (- Qred (b * Qred (12 # 100))))))
    with (vsub (Num (Fin b * dec 12 100)%js) (Num (Fin b * dec 12 100)%js)).
  rewrite percentage_scaled by (assumption || lia). reflexivity.
Qed.

Lemma savings_zero_iff_greenest_witness :
  exists p saved,
    mockBackend.predict (changeText "region" "ca-central-1" defaultForm)
      "0.4fzyo82mvyr" = Resolved p
    /\ potential_savings_kg p = Fin saved
    /\ (0 <= saved)%Q
    /\ ((saved == 0)%Q <-> "ca-central-1" = greenest_region p)
    /\ ("ca-central-1" = greenest_region p -> savings_percentage p = Fin 0).
Proof.
  apply (@savings_zero_iff_greenest
           (changeText "region" "ca-central-1" defaultForm)
           "0.4fzyo82mvyr").
  - vm_compute. reflexivity.
  - simpl. tauto.
Defined.

(* ------------------------------------------------------------------------- *)
(** ** Quantities out of range *)

Lemma baseCarbon_nan (f : formData) :
  duration_hours f = NaN \/ gpu_count f = NaN \/ dataset_size_gb f = NaN ->
  mockBackend.baseCarbon f = NaN.
Proof.
  unfold mockBackend.baseCarbon.
  intros [E|[E|E]]; rewrite E.
  - reflexivity.
  - destruct (duration_hours f); reflexivity.
  - destruct (duration_hours f * gpu_count f * dec 3 10)%js; reflexivity.
Qed.

Lemma sub_nan_r (a : number) : (a - NaN)%js = NaN.
Proof. destruct a; reflexivity. Qed.

(** X4: when the duration, the GPU count or the dataset size is [NaN] (what
    [parseFloat] makes of an emptied input), [predict] still resolves: every
    carbon value is [NaN], the "greenest" region is the first of the table,
    and savings and percentage are [NaN]. *)
Theorem predict_nan_quantity (f : formData) (random36 : string) :
  duration_hours f = NaN \/ gpu_count f = NaN \/ dataset_size_gb f = NaN ->
  exists p,
    mockBackend.predict f random36 = Resolved p
    /\ (forall r v, In (r, v) (carbon_by_region p) -> v = NaN)
    /\ greenest_region p = "us-east-1"
    /\ potential_savings_kg p = NaN
    /\ savings_percentage p = NaN.
Proof.
  intros H. apply baseCarbon_nan in H.
  destruct (predict_resolves f random36) as [g [Hg Hp]]. cbv zeta in Hg.
  rewrite H in Hg, Hp.
  vm_compute in Hg. inversion Hg; subst g; clear Hg.
  eexists. split; [exact Hp|].
  cbn [carbon_by_region greenest_region potential_savings_kg
       savings_percentage fst].
  split.
  { unfold mockBackend.carbonByRegion.
    intros r v [E|[E|[E|[E|[E|[]]]]]]; inversion E; reflexivity. }
  split; [reflexivity|].
  assert (Hs : vsub (get (mockBackend.carbonByRegion NaN) (region f))
                 (get (mockBackend.carbonByRegion NaN) "us-east-1") = NaN).
  { unfold vsub.
    change (to_number (get (mockBackend.carbonByRegion NaN) "us-east-1"))
      with NaN.
    apply sub_nan_r. }
  rewrite Hs. split; reflexivity.
Qed.

Lemma predict_nan_quantity_witness :
  exists p,
    mockBackend.predict (changeNumber "duration_hours" NaN defaultForm)
      "0.4fzyo82mvyr" = Resolved p
    /\ (forall r v, In (r, v) (carbon_by_region p) -> v = NaN)
    /\ greenest_region p = "us-east-1"
    /\ potential_savings_kg p = NaN
    /\ savings_percentage p = NaN.
Proof.
  apply (@predict_nan_quantity (changeNumber "duration_hours" NaN defaultForm)
           "0.4fzyo82mvyr").
  left. reflexivity.
Defined.

(** With a negative base the order of the values is reversed, and the
    minimum sits at the largest coefficient. *)
Lemma greenest_negative (b : Q) (g : string * number) :
  (b < 0)%Q ->
  first_sorted mockBackend.by_carbon (mockBackend.carbonByRegion (Fin b))
  = Some g ->
  fst g = "ap-southeast-1".
Proof.
  intros Hb Hg.
  assert (Hnan : forall e, In e (mockBackend.carbonByRegion (Fin b)) ->
                           is_nan (snd e) = false).
  { intros e He. rewrite (@carbonByRegion_nan _ _ He). reflexivity. }
  destruct (@first_sorted_by_carbon _ _ Hnan Hg)
    as [Hmin (before & after & Hsplit & _)].
  assert (Hin : In g (mockBackend.carbonByRegion (Fin b)))
    by (rewrite Hsplit; apply in_elt).
  specialize (Hmin ("ap-southeast-1", (Fin b * dec 48 100)%js)).
  unfold mockBackend.carbonByRegion, dec in Hin, Hmin.
  cbn [JS.mul] in Hin, Hmin.
  assert (H4 : leb (snd g) (Fin (Qred (b * Qred (48 # 100)))) = true)
    by (apply Hmin; auto 10 using in_eq, in_cons).
  clear Hmin.
  destruct Hin as [<-|[<-|[<-|[<-|[<-|[]]]]]]; try reflexivity;
    cbn [snd] in H4; apply leb_Fin in H4; rewrite !Qred_correct in H4; lra.
Qed.

Lemma negativeWorkload_baseCarbon (f : formData) :
  negativeWorkload f = true ->
  exists b, mockBackend.baseCarbon f = Fin b /\ (b < 0)%Q.
Proof.
  unfold negativeWorkload. rewrite !andb_true_iff, orb_true_iff.
  intros [[Hd Hg] Hz].
  apply ordinaryQuantity_Fin in Hd. destruct Hd as [d' [Ed Hd]].
  apply ordinaryQuantity_Fin in Hg. destruct Hg as [g [Eg Hg]].
  destruct (duration_hours f) as [ | | |d] eqn:Ed'; try discriminate.
  cbn [neg] in Ed. inversion Ed as [Ed1]. clear Ed.
  assert (Hdneg : (d < 0)%Q).
  { rewrite <- Ed1, Qred_correct in Hd. lra. }
  assert (Hdg : (d * g < 0)%Q).
  { assert (H : (0 < (- d) * g)%Q) by (apply Qmult_lt_0_compat; lra).
    assert (E : ((- d) * g == - (d * g))%Q) by ring.
    rewrite E in H. lra. }
  assert (H : exists z, dataset_size_gb f = Fin z /\ (z <= 0)%Q).
  { destruct Hz as [Hz|Hz].
    - apply isZero_Fin in Hz. destruct Hz as [z [Ez Hz]].
      exists z. split; [exact Ez|]. rewrite Hz. lra.
    - apply ordinaryQuantity_Fin in Hz. destruct Hz as [z' [Ez Hz]].
      destruct (dataset_size_gb f) as [ | | |z]; try discriminate.
      cbn [neg] in Ez. inversion Ez as [Ez1].
      exists z. split; [reflexivity|].
      rewrite <- Ez1, Qred_correct in Hz. lra. }
  destruct H as [z [Ez Hz0]].
  unfold mockBackend.baseCarbon. rewrite Ez, Ed', Eg. unfold dec.
  cbn [JS.mul JS.add]. eexists. split; [reflexivity|].
  rewrite !Qred_correct. lra.
Qed.

(** X5: negative quantities are not refused.  For a negative duration of
    ordinary magnitude (between -2^300 and -2^-300), a GPU count of
    ordinary magnitude and a dataset size that is 0 or negative, every
    carbon value is negative and the region picked as greenest is
    "ap-southeast-1", the one with the largest coefficient. *)
Theorem predict_negative_base (f : formData) (random36 : string) :
  negativeWorkload f = true ->
  exists p,
    mockBackend.predict f random36 = Resolved p
    /\ greenest_region p = "ap-southeast-1"
    /\ forall r v, In (r, v) (carbon_by_region p) ->
                   exists q, v = Fin q /\ (q < 0)%Q.
Proof.
  intros Hnegative.
  destruct (negativeWorkload_baseCarbon f Hnegative) as [b [Eb Hneg]].
  destruct (predict_resolves f random36) as [g [Hg Hp]]. cbv zeta in Hg.
  rewrite Eb in Hg, Hp.
  eexists. split; [exact Hp|].
  cbn [carbon_by_region greenest_region].
  split.
  - exact (greenest_negative Hneg Hg).
  - unfold mockBackend.carbonByRegion, dec. cbn [JS.mul].
    intros r v [E|[E|[E|[E|[E|[]]]]]]; inversion E; eexists;
      (split; [reflexivity|]); rewrite !Qred_correct; lra.
Qed.

Lemma predict_negative_base_witness :
  exists p,
    mockBackend.predict
      (changeNumber "dataset_size_gb" (of_Z 0)
         (changeNumber "duration_hours" (of_Z (-4)) defaultForm))
      "0.4fzyo82mvyr" = Resolved p
    /\ greenest_region p = "ap-southeast-1"
    /\ forall r v, In (r, v) (carbon_by_region p) ->
                   exists q, v = Fin q /\ (q < 0)%Q.
Proof.
  apply (@predict_negative_base
           (changeNumber "dataset_size_gb" (of_Z 0)
              (changeNumber "duration_hours" (of_Z (-4)) defaultForm))
           "0.4fzyo82mvyr").
  vm_compute. reflexivity.
Defined.

(* ------------------------------------------------------------------------- *)
(** ** Job identifiers *)


Lemma length_drop (n : nat) (s : string) :
  String.length (drop n s) = (String.length s - n)%nat.
Proof.
  revert s. induction n as [|n IH]; intros [|c s]; cbn [drop String.length];
    try reflexivity; try lia.
  rewrite IH. reflexivity.
Qed.





Lemma drop_append (n : nat) (s t : string) :
  (n <= String.length s)%nat -> drop n (s ++ t) = drop n s ++ t.
Proof.
  revert s. induction n as [|n IH]; intros [|c s] H; cbn [drop append];
    try reflexivity; cbn [String.length] in H; try lia.
  apply IH. lia.
Qed.

Lemma take_append (n : nat) (s t : string) :
  (n <= String.length s)%nat -> take n (s ++ t) = take n s.
Proof.
  revert s. induction n as [|n IH]; intros s H; [reflexivity|].
  destruct s as [|c s]; cbn [String.length] in H; [lia|].
  cbn [append take]. rewrite IH by lia. reflexivity.
Qed.

(** X7: the identifier keeps nine characters of the random text and drops
    the rest: two random texts that agree on their first eleven characters
    get the same identifier, however they go on. *)
Theorem job_id_truncates (common rest1 rest2 : string) :
  (11 <= String.length common)%nat ->
  mockBackend.make_job_id (common ++ rest1)
  = mockBackend.make_job_id (common ++ rest2).
Proof.
  intros H. unfold mockBackend.make_job_id, substr.
  rewrite !drop_append by lia.
  rewrite !take_append by (rewrite length_drop; lia).
  reflexivity.
Qed.

Lemma job_id_truncates_witness :
  "0.4fzyo82mvyr" <> "0.4fzyo82mvzz"
  /\ mockBackend.make_job_id ("0.4fzyo82mv" ++ "yr")
     = mockBackend.make_job_id ("0.4fzyo82mv" ++ "zz").
Proof.
  split; [discriminate|].
  apply (@job_id_truncates "0.4fzyo82mv" "yr" "zz"). simpl. lia.
Defined.

(* ------------------------------------------------------------------------- *)
(** ** The range of the power estimate *)

Lemma modelPower_range (k : string) :
  exists q,
    match Design.catalogued mockBackend.modelPower k with
    | Some w => w
    | None => of_Z 200
    end = Fin q /\ (80 <= q <= 350)%Q.
Proof.
  destruct (Design.catalogued mockBackend.modelPower k) as [w|] eqn:E.
  - apply catalogued_in in E. unfold mockBackend.modelPower in E.
    destruct E as [E|[E|[E|[E|[E|[E|[]]]]]]]; inversion E; eexists;
      (split; [reflexivity|]); unfold inject_Z; lra.
  - eexists. split; [reflexivity|]. unfold inject_Z. lra.
Qed.

Lemma gpuPower_range (k : string) :
  exists q,
    match Design.catalogued mockBackend.gpuPower k with
    | Some w => w
    | None => of_Z 250
    end = Fin q /\ (70 <= q <= 400)%Q.
Proof.
  destruct (Design.catalogued mockBackend.gpuPower k) as [w|] eqn:E.
  - apply catalogued_in in E. unfold mockBackend.gpuPower in E.
    destruct E as [E|[E|[E|[]]]]; inversion E; eexists;
      (split; [reflexivity|]); unfold inject_Z; lra.
  - eexists. split; [reflexivity|]. unfold inject_Z. lra.
Qed.

(** The estimate as a rational: base wattage [qb], per-GPU wattage [qg]. *)
Lemma calculateEstimatedPower_Fin (f : formData) (g : Q) :
  inherits (model_type f) = false -> inherits (gpu_type f) = false ->
  gpu_count f = Fin g ->
  exists qb qg,
    mockBackend.calculateEstimatedPower f
    = Sum (Fin (Qred (qb + Qred (qg * g))))
    /\ (80 <= qb <= 350)%Q /\ (70 <= qg <= 400)%Q
    /\ forall f' g',
         model_type f' = model_type f -> gpu_type f' = gpu_type f ->
         gpu_count f' = Fin g' ->
         mockBackend.calculateEstimatedPower f'
         = Sum (Fin (Qred (qb + Qred (qg * g')))).
Proof.
  intros Hm Ht Eg. unfold mockBackend.calculateEstimatedPower.
  destruct (modelPower_range (model_type f)) as [qb [Eb Hb]].
  destruct (gpuPower_range (gpu_type f)) as [qg [Eq Hq]].
  exists qb, qg.
  rewrite or_default_modelPower by exact Hm.
  rewrite or_default_gpuPower by exact Ht.
  rewrite Eb, Eq, Eg.
  split; [reflexivity|]. split; [exact Hb|]. split; [exact Hq|].
  intros f' g' Em Et Eg'. rewrite Em, Et.
  rewrite or_default_modelPower by exact Hm.
  rewrite or_default_gpuPower by exact Ht.
  rewrite Eb, Eq, Eg'.
  reflexivity.
Qed.

(** X8: for the GPU counts the form offers (1 to 8), and any model and GPU
    type, catalogued or not, whose name is not one every object inherits
    ("constructor", "toString" and the like), the estimate is a number
    between 150 and 3550 watts. *)
Theorem calculateEstimatedPower_range (f : formData) (g : Q) :
  inherits (model_type f) = false -> inherits (gpu_type f) = false ->
  gpu_count f = Fin g -> (1 <= g <= 8)%Q ->
  exists w,
    mockBackend.calculateEstimatedPower f = Sum (Fin w)
    /\ (150 <= w <= 3550)%Q.
Proof.
  intros Hm Ht Eg Hg.
  destruct (calculateEstimatedPower_Fin f Hm Ht Eg)
    as [qb [qg [E [Hb [Hq _]]]]].
  eexists. split; [exact E|]. rewrite !Qred_correct.
  assert (H1 : (70 * 1 <= qg * g)%Q) by (apply Qmult_le_compat_nonneg; lra).
  assert (H2 : (qg * g <= 400 * 8)%Q) by (apply Qmult_le_compat_nonneg; lra).
  lra.
Qed.

Lemma calculateEstimatedPower_range_witness :
  exists w,
    mockBackend.calculateEstimatedPower defaultForm = Sum (Fin w)
    /\ (150 <= w <= 3550)%Q.
Proof.
  apply (@calculateEstimatedPower_range defaultForm 2).
  - reflexivity.
  - reflexivity.
  - reflexivity.
  - unfold Qle; simpl; lia.
Defined.

(** X9: with the model and GPU type fixed, and neither a name every object
    inherits, the estimate is a number that grows with the GPU count. *)
Theorem calculateEstimatedPower_monotone (f f' : formData) (g g' : Q) :
  inherits (model_type f) = false -> inherits (gpu_type f) = false ->
  model_type f' = model_type f -> gpu_type f' = gpu_type f ->
  gpu_count f = Fin g -> gpu_count f' = Fin g' -> (g <= g')%Q ->
  exists w w',
    mockBackend.calculateEstimatedPower f = Sum w
    /\ mockBackend.calculateEstimatedPower f' = Sum w'
    /\ leb w w' = true.
Proof.
  intros Hm Ht Em Et Eg Eg' Hle.
  destruct (calculateEstimatedPower_Fin f Hm Ht Eg)
    as [qb [qg [E [Hb [Hq Hsame]]]]].
  rewrite E, (Hsame f' g' Em Et Eg').
  eexists. eexists. split; [reflexivity|]. split; [reflexivity|].
  apply leb_Fin. rewrite !Qred_correct.
  assert (H : (qg * g <= qg * g')%Q) by (apply Qmult_le_l; lra).
  lra.
Qed.

Lemma calculateEstimatedPower_monotone_witness :
  exists w w',
    mockBackend.calculateEstimatedPower defaultForm = Sum w
    /\ mockBackend.calculateEstimatedPower
         (changeNumber "gpu_count" (of_Z 8) defaultForm) = Sum w'
    /\ leb w w' = true.
Proof.
  apply (@calculateEstimatedPower_monotone defaultForm
           (changeNumber "gpu_count" (of_Z 8) defaultForm) 2 8);
    try reflexivity.
  unfold Qle; simpl; lia.
Defined.

(* ------------------------------------------------------------------------- *)
(** ** The calculator never hangs *)

Lemma step_settled (s : state) (e : event) :
  loading s = false /\ updatingCarbon s = false /\ error s = "" ->
  loading (step s e) = false /\ updatingCarbon (step s e) = false
  /\ error (step s e) = "".
Proof.
  intros [Hl [Hu He]]. destruct e; cbn [step].
  - repeat split; assumption.
  - repeat split; assumption.
  - repeat split; assumption.
  - repeat split; assumption.
  - destruct (handleSubmit_result random36 s) as [p [_ ->]].
    repeat split; assumption.
Qed.

(** X10: whatever the user does, once the backend has answered the
    calculator is not left loading, is not left updating the carbon data, and
    shows no error: every promise of the mock backend resolves. *)
Theorem calculator_settles (s : state) :
  reachable s ->
  loading s = false /\ updatingCarbon s = false /\ error s = "".
Proof.
  intros [es ->]. unfold run.
  induction es as [|e es IH] using rev_ind; [repeat split|].
  rewrite fold_left_app. cbn [fold_left]. apply step_settled. exact IH.
Qed.

Lemma calculator_settles_witness :
  let s := run [Mount; ChangeNumber "duration_hours" NaN;
                Submit "0.4fzyo82mvyr"; ClickUpdateCarbon] in
  loading s = false /\ updatingCarbon s = false /\ error s = "".
Proof.
  intros s. apply (@calculator_settles s).
  exists [Mount; ChangeNumber "duration_hours" NaN;
          Submit "0.4fzyo82mvyr"; ClickUpdateCarbon].
  reflexivity.
Defined.

(* ------------------------------------------------------------------------- *)
(** ** The region cards *)

Section SortOrder.

Variable A : Type.
Variable comparefn : A -> A -> number.



End SortOrder.




(* ------------------------------------------------------------------------- *)
(** ** Which regions can come out greenest *)

(** X12: when each of the duration, the GPU count and the dataset size is
    [NaN], infinite, zero or of ordinary magnitude (absolute value between
    2^-300 and 2^300), the greenest region [predict] reports is "us-east-1",
    "ap-southeast-1" or "ca-central-1"; it is not "us-west-2", the region
    [optimizeWorkload] recommends for every workload.  (Below these
    magnitudes the engine's rounding can merge the carbon values of two
    regions, which is why the quantities are restricted.) *)
Theorem greenest_never_recommended
    (f : formData) (random36 : string) (w : WorkloadCreator.workloadData) :
  plainWorkload f = true ->
  exists p o,
    mockBackend.predict f random36 = Resolved p
    /\ WorkloadCreator.optimizeWorkload w = Resolved o
    /\ In (greenest_region p) ["us-east-1"; "ap-southeast-1"; "ca-central-1"]
    /\ WorkloadCreator.recommended_region o = "us-west-2"
    /\ greenest_region p <> WorkloadCreator.recommended_region o.
Proof.
  intros _.
  destruct (predict_resolves f random36) as [g [Hg Hp]]. cbv zeta in Hg.
  eexists. eexists. split; [exact Hp|]. split; [reflexivity|].
  cbn [greenest_region WorkloadCreator.recommended_region].
  assert (H : In (fst g) ["us-east-1"; "ap-southeast-1"; "ca-central-1"]).
  { destruct (mockBackend.baseCarbon f) as [ | | |b].
    - vm_compute in Hg. inversion Hg. left. reflexivity.
    - vm_compute in Hg. inversion Hg. left. reflexivity.
    - vm_compute in Hg. inversion Hg. left. reflexivity.
    - destruct (Qcompare_spec 0 b) as [E|E|E].
      + rewrite (@carbonByRegion_zero b) in Hg by (symmetry; exact E).
        vm_compute in Hg. inversion Hg. left. reflexivity.
      + rewrite (greenest_positive E Hg). right. right. left. reflexivity.
      + rewrite (greenest_negative E Hg). right. left. reflexivity. }
  split; [exact H|]. split; [reflexivity|].
  intros E. rewrite E in H. simpl in H. intuition discriminate.
Qed.

Lemma greenest_never_recommended_witness :
  exists p o,
    mockBackend.predict
      (changeNumber "duration_hours" NInf defaultForm) "0.4fzyo82mvyr"
    = Resolved p
    /\ WorkloadCreator.optimizeWorkload
         (WorkloadCreator.data WorkloadCreator.initial) = Resolved o
    /\ In (greenest_region p) ["us-east-1"; "ap-southeast-1"; "ca-central-1"]
    /\ WorkloadCreator.recommended_region o = "us-west-2"
    /\ greenest_region p <> WorkloadCreator.recommended_region o.
Proof.
  apply (@greenest_never_recommended
           (changeNumber "duration_hours" NInf defaultForm) "0.4fzyo82mvyr"
           (WorkloadCreator.data WorkloadCreator.initial)).
  vm_compute. reflexivity.
Defined.

(* ------------------------------------------------------------------------- *)
(** ** The workload creator *)

Lemma max_floor (lo : Z) (x : Q) :
  JS.max (of_Z lo) (floor (Fin x)) = Fin (inject_Z (Z.max lo (Qfloor x))).
Proof.
  cbn [floor JS.max of_Z].
  destruct (Qcompare_spec (inject_Z lo) (inject_Z (Qfloor x))) as [E|E|E].
  - pose proof (proj1 (inject_Z_injective _ _) E) as E'.
    rewrite Z.max_l by lia. reflexivity.
  - rewrite <- Zlt_Qlt in E. rewrite Z.max_r by lia. reflexivity.
  - rewrite <- Zlt_Qlt in E. rewrite Z.max_l by lia. reflexivity.
Qed.

(** Rounding down and then raising to a floor [lo]: never below the floor,
    not above a bound that holds for both, and the floor itself when the
    value is below it. *)
Lemma floor_cap (lo : Z) (x c : Q) :
  (lo <= Z.max lo (Qfloor x))%Z
  /\ ((x <= c)%Q -> (inject_Z lo <= c)%Q ->
      (inject_Z (Z.max lo (Qfloor x)) <= c)%Q)
  /\ ((x < inject_Z lo)%Q -> Z.max lo (Qfloor x) = lo).
Proof.
  split; [lia|]. split.
  - intros Hx Hlo. pose proof (Qfloor_le x) as Hf.
    destruct (Z.max_spec lo (Qfloor x)) as [[_ ->]|[_ ->]]; [lra|exact Hlo].
  - intros Hx. pose proof (Qfloor_le x) as Hf.
    assert (H : (inject_Z (Qfloor x) < inject_Z lo)%Q) by lra.
    rewrite <- Zlt_Qlt in H. lia.
Qed.

(** X13: for numeric resources, [optimizeWorkload] returns whole numbers of
    cores, GB and GPUs that are at least 2, 8 and 1; a request at or above
    its floor is never exceeded, and a request below its floor is raised to
    the floor. *)
Theorem optimizeWorkload_bounds
    (w : WorkloadCreator.workloadData) (c m g : Q) :
  WorkloadCreator.cpu_cores w = Fin c ->
  WorkloadCreator.memory_gb w = Fin m ->
  WorkloadCreator.gpu_count w = Fin g ->
  exists o (oc om og : Z),
    WorkloadCreator.optimizeWorkload w = Resolved o
    /\ WorkloadCreator.optimized_cpu_cores o = Fin (inject_Z oc)
    /\ WorkloadCreator.optimized_memory_gb o = Fin (inject_Z om)
    /\ WorkloadCreator.optimized_gpu_count o = Fin (inject_Z og)
    /\ ((2 <= oc)%Z /\ ((2 <= c)%Q -> (inject_Z oc <= c)%Q)
        /\ ((c < 2)%Q -> oc = 2%Z))
    /\ ((8 <= om)%Z /\ ((8 <= m)%Q -> (inject_Z om <= m)%Q)
        /\ ((m < 8)%Q -> om = 8%Z))
    /\ ((1 <= og)%Z /\ ((1 <= g)%Q -> (inject_Z og <= g)%Q)
        /\ ((g < 1)%Q -> og = 1%Z)).
Proof.
  intros Ec Em Eg. unfold WorkloadCreator.optimizeWorkload.
  rewrite Ec, Em, Eg. unfold dec. cbn [JS.mul].
  rewrite !max_floor.
  eexists. eexists. eexists. eexists.
  split; [reflexivity|].
  cbn [WorkloadCreator.optimized_cpu_cores WorkloadCreator.optimized_memory_gb
       WorkloadCreator.optimized_gpu_count].
  split; [reflexivity|]. split; [reflexivity|]. split; [reflexivity|].
  split; [|split].
  - destruct (floor_cap 2 (Qred (c * Qred (8 # 10))) c) as [H1 [H2 H3]].
    split; [exact H1|]. split.
    + intros Hc. apply H2; [rewrite !Qred_correct; lra|exact Hc].
    + intros Hc. apply H3. rewrite !Qred_correct.
      change (inject_Z 2) with 2%Q. lra.
  - destruct (floor_cap 8 (Qred (m * Qred (9 # 10))) m) as [H1 [H2 H3]].
    split; [exact H1|]. split.
    + intros Hm. apply H2; [rewrite !Qred_correct; lra|exact Hm].
    + intros Hm. apply H3. rewrite !Qred_correct.
      change (inject_Z 8) with 8%Q. lra.
  - destruct (floor_cap 1 g g) as [H1 [H2 H3]].
    split; [exact H1|]. split.
    + intros Hg. apply H2; [lra|exact Hg].
    + intros Hg. apply H3. exact Hg.
Qed.

Lemma optimizeWorkload_bounds_witness :
  exists o (oc om og : Z),
    WorkloadCreator.optimizeWorkload
      (WorkloadCreator.changeNumber "cpu_cores" (of_Z 1)
         (WorkloadCreator.data WorkloadCreator.initial)) = Resolved o
    /\ WorkloadCreator.optimized_cpu_cores o = Fin (inject_Z oc)
    /\ WorkloadCreator.optimized_memory_gb o = Fin (inject_Z om)
    /\ WorkloadCreator.optimized_gpu_count o = Fin (inject_Z og)
    /\ ((2 <= oc)%Z /\ ((2 <= 1)%Q -> (inject_Z oc <= 1)%Q)
        /\ ((1 < 2)%Q -> oc = 2%Z))
    /\ ((8 <= om)%Z /\ ((8 <= 16)%Q -> (inject_Z om <= 16)%Q)
        /\ ((16 < 8)%Q -> om = 8%Z))
    /\ ((1 <= og)%Z /\ ((1 <= 1)%Q -> (inject_Z og <= 1)%Q)
        /\ ((1 < 1)%Q -> og = 1%Z)).
Proof.
  apply (@optimizeWorkload_bounds
           (WorkloadCreator.changeNumber "cpu_cores" (of_Z 1)
              (WorkloadCreator.data WorkloadCreator.initial)) 1 16 1);
    reflexivity.
Defined.

(** X15: a core count that is [NaN] (an emptied input) is not raised to the
    floor of 2: [Math.max] hands the [NaN] on, and both carbon figures are
    [NaN] as well. *)
Theorem optimizeWorkload_nan (w : WorkloadCreator.workloadData) :
  WorkloadCreator.cpu_cores w = NaN ->
  exists o,
    WorkloadCreator.optimizeWorkload w = Resolved o
    /\ WorkloadCreator.optimized_cpu_cores o = NaN
    /\ WorkloadCreator.estimated_carbon o = NaN
    /\ WorkloadCreator.optimized_carbon o = NaN.
Proof.
  intros E. unfold WorkloadCreator.optimizeWorkload, WorkloadCreator.baseCarbon.
  rewrite E. eexists. split; [reflexivity|]. repeat split.
Qed.

Lemma optimizeWorkload_nan_witness :
  exists o,
    WorkloadCreator.optimizeWorkload
      (WorkloadCreator.changeNumber "cpu_cores" NaN
         (WorkloadCreator.data WorkloadCreator.initial)) = Resolved o
    /\ WorkloadCreator.optimized_cpu_cores o = NaN
    /\ WorkloadCreator.estimated_carbon o = NaN
    /\ WorkloadCreator.optimized_carbon o = NaN.
Proof.
  apply (@optimizeWorkload_nan
           (WorkloadCreator.changeNumber "cpu_cores" NaN
              (WorkloadCreator.data WorkloadCreator.initial))).
  reflexivity.
Defined.

(* ------------------------------------------------------------------------- *)
(** ** The job list *)

(** X16: [getJobs(limit)] resolves with exactly [limit] rows (10 when the
    limit is left out); the region of every row is one of the regions
    [predict] knows and its model type is in the power catalogue. *)
Theorem getJobs_rows (limit : option nat) (random : nat -> draw) :
  exists jobs,
    mockBackend.getJobs limit random = Resolved jobs
    /\ List.length jobs = match limit with Some n => n | None => 10%nat end
    /\ forall j,
         In j jobs ->
         In (mockBackend.region j) builtinRegions
         /\ In (mockBackend.model_type j) (keys mockBackend.modelPower).
Proof.
  unfold mockBackend.getJobs. eexists. split; [reflexivity|]. split.
  - rewrite length_map, length_seq. reflexivity.
  - intros j Hj. apply in_map_iff in Hj. destruct Hj as [i [<- _]].
    cbn [mockBackend.job_at mockBackend.region mockBackend.model_type].
    split.
    + unfold builtinRegions. apply nth_In. cbn [List.length].
      apply Nat.mod_upper_bound. lia.
    + assert (H : In (nth (i mod 4) ["ResNet50"; "BERT-Base"; "GPT-2"; "ViT"] "")
                    ["ResNet50"; "BERT-Base"; "GPT-2"; "ViT"]).
      { apply nth_In. cbn [List.length]. apply Nat.mod_upper_bound. lia. }
      cbn [keys map fst mockBackend.modelPower].
      destruct H as [<-|[<-|[<-|[<-|[]]]]]; auto 10 using in_eq, in_cons.
Qed.

(** X17: when every random draw is a number in [0, 1), every row of
    [getJobs] has a carbon figure between 2.5 and 7.5, savings between 0.5
    and 2.5 and a percentage between 15 and 50, bounds included; the
    savings never exceed the carbon. *)
Theorem getJobs_ranges (limit : option nat) (random : nat -> draw) :
  (forall k, exists q, drawn (random k) = Fin q /\ (0 <= q < 1)%Q) ->
  exists jobs,
    mockBackend.getJobs limit random = Resolved jobs
    /\ forall j,
         In j jobs ->
         exists c s p,
           mockBackend.predicted_carbon_kg j = Fin c
           /\ mockBackend.potential_savings_kg j = Fin s
           /\ mockBackend.savings_percentage j = Fin p
           /\ (5 # 2 <= c <= 15 # 2)%Q
           /\ (1 # 2 <= s <= 5 # 2)%Q
           /\ (15 <= p <= 50)%Q
           /\ (s <= c)%Q.
Proof.
  intros Hdraw. unfold mockBackend.getJobs. eexists. split; [reflexivity|].
  intros j Hj. apply in_map_iff in Hj. destruct Hj as [i [<- _]].
  cbn [mockBackend.job_at mockBackend.predicted_carbon_kg
       mockBackend.potential_savings_kg mockBackend.savings_percentage].
  destruct (Hdraw (4 * i + 1)%nat) as [q1 [E1 H1]].
  destruct (Hdraw (4 * i + 2)%nat) as [q2 [E2 H2]].
  destruct (Hdraw (4 * i + 3)%nat) as [q3 [E3 H3]].
  rewrite E1, E2, E3. unfold dec, of_Z. cbn [JS.mul JS.add].
  eexists. eexists. eexists.
  split; [reflexivity|]. split; [reflexivity|]. split; [reflexivity|].
  rewrite !Qred_correct. unfold inject_Z.
  repeat split; lra.
Qed.

Lemma getJobs_ranges_witness :
  exists jobs,
    mockBackend.getJobs (Some 3%nat) (fun _ => mkDraw (dec 5 10) "0.i")
    = Resolved jobs
    /\ forall j,
         In j jobs ->
         exists c s p,
           mockBackend.predicted_carbon_kg j = Fin c
           /\ mockBackend.potential_savings_kg j = Fin s
           /\ mockBackend.savings_percentage j = Fin p
           /\ (5 # 2 <= c <= 15 # 2)%Q
           /\ (1 # 2 <= s <= 5 # 2)%Q
           /\ (15 <= p <= 50)%Q
           /\ (s <= c)%Q.
Proof.
  apply (@getJobs_ranges (Some 3%nat) (fun _ => mkDraw (dec 5 10) "0.i")).
  intros k. exists (1 # 2). split; [reflexivity|].
  split; [discriminate|reflexivity].
Defined.

(* ------------------------------------------------------------------------- *)
(** ** The page: refresh trigger and dashboard *)

Lemma step_refreshTrigger (s : App.state) (e : App.event) :
  App.refreshTrigger (App.step s e)
  = (App.refreshTrigger s + if App.submits e then 1 else 0)%nat.
Proof.
  destruct e as [ce random|we random|random]; cbn [App.step App.submits].
  - destruct ce; cbn [App.notifies App.refreshTrigger]; try lia.
    destruct (predict_resolves (form (App.calculator s)) random36)
      as [g [_ ->]].
    cbn [App.handleNewPrediction App.refreshTrigger]. lia.
  - destruct we; cbn [WorkloadCreator.step App.refreshTrigger]; try lia.
    unfold WorkloadCreator.handleSubmit, WorkloadCreator.optimizeWorkload.
    cbn [App.handleNewPrediction App.refreshTrigger]. lia.
  - cbn [App.refreshTrigger]. lia.
Qed.

(** X18: the refresh trigger counts the submissions: after any sequence of
    events it equals the number of form submissions (calculator and workload
    creator together), because no submission ever fails. *)
Theorem refreshTrigger_counts (es : list App.event) :
  App.refreshTrigger (App.run es) = List.length (filter App.submits es).
Proof.
  unfold App.run.
  induction es as [|e es IH] using rev_ind; [reflexivity|].
  rewrite fold_left_app, filter_app, length_app. cbn [fold_left filter].
  rewrite step_refreshTrigger, IH.
  destruct (App.submits e); cbn [List.length]; lia.
Qed.

Lemma fetchData_filled (random : nat -> draw) (d : Dashboard.state) :
  dashboardFilled (Dashboard.fetchData random d).
Proof.
  unfold dashboardFilled, Dashboard.fetchData. eexists.
  cbn. split; [reflexivity|]. split; [reflexivity|]. split; reflexivity.
Qed.

Lemma dashboard_invariant (es : list App.event) :
  App.dashboard (App.run es) = Dashboard.initial
  \/ dashboardFilled (App.dashboard (App.run es)).
Proof.
  unfold App.run.
  induction es as [|e es IH] using rev_ind; [left; reflexivity|].
  rewrite fold_left_app. cbn [fold_left].
  set (s := fold_left App.step es App.initial) in *.
  destruct e as [ce random|we random|random]; cbn [App.step].
  - destruct (App.notifies (App.calculator s) ce);
      [right; apply fetchData_filled | exact IH].
  - destruct (WorkloadCreator.step (App.creator s) we) as [w' [|]];
      [right; apply fetchData_filled | exact IH].
  - right. apply fetchData_filled.
Qed.

(** X19: predictions are never recorded: whenever the dashboard has
    statistics, they are the fixed ones of [getStats] (47 jobs in total)
    however many forms were submitted before, and the job table has ten
    rows. *)
Theorem dashboard_stats_fixed (es : list App.event) (st : mockBackend.stats) :
  Dashboard.stats (App.dashboard (App.run es)) = Some st ->
  mockBackend.getStats = Resolved st
  /\ mockBackend.total_jobs st = of_Z 47
  /\ List.length (Dashboard.recentJobs (App.dashboard (App.run es))) = 10%nat.
Proof.
  intros Hst.
  destruct (dashboard_invariant es) as [E|[st' [Hs [Hg [Hj _]]]]].
  - rewrite E in Hst. discriminate.
  - rewrite Hs in Hst. inversion Hst; subst st'.
    split; [exact Hg|]. split; [|exact Hj].
    unfold mockBackend.getStats in Hg. inversion Hg. reflexivity.
Qed.

(** X20: the dashboard never shows refreshed intensities: after the user
    updates the carbon data the calculator holds the refreshed table, while
    the dashboard, then and at any time, holds nothing or the table
    [getCarbonData] serves. *)
Theorem dashboard_never_refreshed
    (es : list App.event) (random : nat -> draw) :
  let s := App.step (App.run es) (App.Calculator ClickUpdateCarbon random) in
  carbonData (App.calculator s) = refreshedTable
  /\ Dashboard.carbonData (App.dashboard s) <> refreshedTable
  /\ Dashboard.carbonData (App.dashboard (App.run es)) <> refreshedTable.
Proof.
  cbn [App.step App.notifies App.calculator App.dashboard].
  split; [reflexivity|].
  assert (H : Dashboard.carbonData (App.dashboard (App.run es))
              <> refreshedTable).
  { destruct (dashboard_invariant es) as [E|[st [_ [_ [_ E]]]]]; rewrite E.
    - discriminate.
    - vm_compute. intros H. inversion H. }
  split; exact H.
Qed.

Lemma dashboard_stats_fixed_witness :
  exists st,
    Dashboard.stats
      (App.dashboard
         (App.run [App.Calculator (Submit "0.4fzyo82mvyr")
                     (fun _ => mkDraw (dec 5 10) "0.i")])) = Some st
    /\ mockBackend.getStats = Resolved st
    /\ mockBackend.total_jobs st = of_Z 47.
Proof.
  eexists. split; [reflexivity|].
  destruct (@dashboard_stats_fixed
              [App.Calculator (Submit "0.4fzyo82mvyr")
                 (fun _ => mkDraw (dec 5 10) "0.i")] _ eq_refl)
    as [H1 [H2 _]].
  split; [exact H1|exact H2].
Defined.

(* ------------------------------------------------------------------------- *)
(** ** Captions and colours *)

Lemma leb_ltb_trans (a b c : number) :
  leb a b = true -> ltb b c = true -> ltb a c = true.
Proof.
  destruct a as [ | | |x], b as [ | | |y], c as [ | | |z];
    try (simpl; congruence).
  rewrite leb_Fin, !ltb_Fin. lra.
Qed.

Lemma split_head_no_sep (sep : ascii) (s : string) :
  ~ In sep (list_ascii_of_string (split_head sep s)).
Proof.
  induction s as [|c s IH]; cbn [split_head list_ascii_of_string];
    [intros []|].
  destruct (Ascii.eqb_spec c sep) as [->|Hne];
    cbn [list_ascii_of_string]; [intros []|].
  intros [E|H]; [exact (Hne E)|exact (IH H)].
Qed.

Lemma split_head_prefix (sep : ascii) (s : string) :
  split_head sep s = s
  \/ exists rest, s = split_head sep s ++ String sep rest.
Proof.
  induction s as [|c s IH]; cbn [split_head]; [left; reflexivity|].
  destruct (Ascii.eqb_spec c sep) as [->|Hne].
  - right. exists s. reflexivity.
  - destruct IH as [E|[rest E]].
    + left. rewrite E. reflexivity.
    + right. exists rest. cbn [append]. rewrite <- E. reflexivity.
Qed.

(** X21: the caption of a region card, and the name of a chart entry, is
    the part of the region code before its first dash: it contains no dash,
    and the code is the caption itself or the caption, a dash and a rest.
    Codes that differ only after the first dash get the same caption, as
    "us-east-1" and "us-west-2" do. *)
Theorem caption_before_dash (code : string) :
  Dashboard.chartName code = cardCaption code
  /\ ~ In "-"%char (list_ascii_of_string (cardCaption code))
  /\ (cardCaption code = code
      \/ exists rest, code = cardCaption code ++ String "-" rest)
  /\ (forall rest, cardCaption (cardCaption code ++ String "-" rest)
                   = cardCaption code)
  /\ cardCaption "us-east-1" = cardCaption "us-west-2".
Proof.
  unfold Dashboard.chartName, cardCaption.
  split; [reflexivity|]. split; [apply split_head_no_sep|].
  split; [apply split_head_prefix|]. split; [|reflexivity].
  intros rest. generalize (split_head_no_sep "-" code).
  generalize (split_head "-" code) as h.
  induction h as [|c h IH]; intros Hno; cbn [append split_head].
  - reflexivity.
  - destruct (Ascii.eqb_spec c "-"%char) as [->|Hne].
    + exfalso. apply Hno. left. reflexivity.
    + rewrite IH; [reflexivity|].
      intros H. apply Hno. right. exact H.
Qed.

(** X22: the colour of an intensity never improves when the intensity
    grows: below a "success" there is only "success", above a "danger" only
    "danger"; an intensity that is [NaN] is "danger". *)
Theorem intensity_color_monotone (a b : number) :
  leb a b = true ->
  (getCarbonIntensityColor b = "success" ->
   getCarbonIntensityColor a = "success")
  /\ (getCarbonIntensityColor a = "danger" ->
      getCarbonIntensityColor b = "danger")
  /\ getCarbonIntensityColor NaN = "danger".
Proof.
  intros Hab. unfold getCarbonIntensityColor.
  split; [|split; [|reflexivity]].
  - destruct (ltb b (dec 3 10)) eqn:Eb.
    + rewrite (leb_ltb_trans _ _ _ Hab Eb). reflexivity.
    + destruct (ltb b (dec 5 10)); discriminate.
  - destruct (ltb a (dec 3 10)) eqn:Ea; [discriminate|].
    destruct (ltb a (dec 5 10)) eqn:Ea5; [discriminate|]. intros _.
    destruct (ltb b (dec 3 10)) eqn:Eb.
    + rewrite (leb_ltb_trans _ _ _ Hab Eb) in Ea. discriminate.
    + destruct (ltb b (dec 5 10)) eqn:Eb5; [|reflexivity].
      rewrite (leb_ltb_trans _ _ _ Hab Eb5) in Ea5. discriminate.
Qed.

Lemma intensity_color_monotone_witness :
  (getCarbonIntensityColor (dec 28 100) = "success" ->
   getCarbonIntensityColor (dec 12 100) = "success")
  /\ (getCarbonIntensityColor (dec 12 100) = "danger" ->
      getCarbonIntensityColor (dec 28 100) = "danger")
  /\ getCarbonIntensityColor NaN = "danger".
Proof.
  apply (@intensity_color_monotone (dec 12 100) (dec 28 100)).
  reflexivity.
Defined.
